(** * WifiManagerState and HdcpProfile: status bridges of rdkservices

    A shallow embedding of [WifiManagerState.cpp] (the Wifi status bridge)
    and of the event handlers declared in [HdcpProfile/HdcpProfile.h],
    with the properties the specification states about them.

    Conventions of the embedding:
    - the member [m_wifi_status], the function-local static [name] of
      [getWifiInterfaceName] and the calls made to external collaborators
      (DBus client, logger, [WifiManager::onWIFIStateChanged]) are threaded
      through a state monad [M] over a [World];
    - a DBus query [bool f(args, T& out)] is an [option T]: [None] is the
      [false] return, [Some v] the [true] return with [out = v];
    - a [JsonObject] is a finite map from field names to JSON values;
    - [std::mutex]/[std::lock_guard] have no sequential content and the
      tracing macro [LOGINFOMETHOD] has no observable one: both are left out. *)

From Stdlib Require Import Ascii.
From stdpp Require Import base option list strings gmap.

Local Open Scope string_scope.
Local Open Scope list_scope.
Local Open Scope Z_scope.

(** ** Data model *)

(** [WifiManagerImpl::InterfaceStatus]. The header that declares the
    enumeration is not among the sources; its enumerators are the seven
    keys of [statusToState]. A value of the enumeration type that is none of
    them (the one the [unknown state: %d] branches print) is [Unlisted]
    with its integer value. *)
Inductive InterfaceStatus : Type :=
  | Disabled
  | Disconnected
  | Associating
  | Dormant
  | Binding
  | Assigned
  | Scanning
  | Unlisted (raw : Z).

(** [WifiState], with the integer values documented above [statusToState]. *)
Inductive WifiState : Type :=
  | UNINSTALLED
  | DISABLED
  | DISCONNECTED
  | PAIRING
  | CONNECTING
  | CONNECTED.

(** [static_cast<int>(state)] *)
Definition WifiState_to_int (s : WifiState) : Z :=
  match s with
  | UNINSTALLED => 0
  | DISABLED => 1
  | DISCONNECTED => 2
  | PAIRING => 3
  | CONNECTING => 4
  | CONNECTED => 5
  end.

#[global] Instance InterfaceStatus_eq_dec : EqDecision InterfaceStatus.
Proof. solve_decision. Defined.

#[global] Instance WifiState_eq_dec : EqDecision WifiState.
Proof. solve_decision. Defined.

Definition InterfaceStatus_code (s : InterfaceStatus) : nat + Z :=
  match s with
  | Disabled => inl 0%nat
  | Disconnected => inl 1%nat
  | Associating => inl 2%nat
  | Dormant => inl 3%nat
  | Binding => inl 4%nat
  | Assigned => inl 5%nat
  | Scanning => inl 6%nat
  | Unlisted raw => inr raw
  end.

Definition InterfaceStatus_decode (c : nat + Z) : InterfaceStatus :=
  match c with
  | inl 0%nat => Disabled
  | inl 1%nat => Disconnected
  | inl 2%nat => Associating
  | inl 3%nat => Dormant
  | inl 4%nat => Binding
  | inl 5%nat => Assigned
  | inl _ => Scanning
  | inr raw => Unlisted raw
  end.

#[global] Instance InterfaceStatus_countable : Countable InterfaceStatus.
Proof.
  apply (inj_countable' InterfaceStatus_code InterfaceStatus_decode).
  by intros [].
Defined.

(** The anonymous-namespace table [statusToState]
    ([std::map<InterfaceStatus, WifiState>], built from its initializer
    list). *)
Definition statusToState : gmap InterfaceStatus WifiState :=
  list_to_map
    [ (Disabled, DISABLED);
      (Disconnected, DISCONNECTED);
      (Associating, CONNECTING);
      (Dormant, DISCONNECTED);
      (Binding, CONNECTING);
      (Assigned, CONNECTED);
      (Scanning, CONNECTING) ].

(** JSON values stored in a [JsonObject]. *)
Inductive JsonValue : Type :=
  | JString (s : string)
  | JInt (n : Z)
  | JBool (b : bool).

#[global] Instance JsonValue_eq_dec : EqDecision JsonValue.
Proof. solve_decision. Defined.

Abbreviation JsonObject := (gmap string JsonValue).

(** [WPEFramework::Core::ERROR_NONE] *)
Definition ERROR_NONE : Z := 0.

(** ** External collaborators *)

(** The DBus client, as the answers it gives while one bridge operation
    runs. *)
Record DBusClient : Type := mkDBusClient {
  networkconfig1_GetInterfaces : option (list string);
  networkconfig1_GetParam : string → string → option string;
  networkconfig1_GetStatus : string → option InterfaceStatus;
}.

(** Arguments of a formatted log line. *)
Inductive LogArg : Type :=
  | ArgStr (s : string)
  | ArgStatus (s : InterfaceStatus).

(** Calls that leave the bridge, in program order. *)
Inductive Effect : Type :=
  | CallGetInterfaces
  | CallGetParam (intf key : string)
  | CallGetStatus (iname : string)
  | CallRegisterStatusChanged
  | LOGWARN (fmt : string) (args : list LogArg)
  | onWIFIStateChanged (state : WifiState) (isLNF : bool).

(** ** Process state and the monad that threads it *)

Record World : Type := mkWorld {
  m_wifi_status : InterfaceStatus;
  (** the static [name] of [getWifiInterfaceName]; [None] until the first
      call has initialised it *)
  name_static : option string;
  trace : list Effect;
}.

Definition M (A : Type) : Type := World → A * World.

#[global] Instance M_ret : MRet M := λ A a w, (a, w).
#[global] Instance M_bind : MBind M := λ A B k m w, k (m w).1 (m w).2.

Definition emit (e : Effect) : M unit :=
  λ w, (tt, mkWorld (m_wifi_status w) (name_static w) (trace w ++ [e])).

Definition store_wifi_status (s : InterfaceStatus) : M unit :=
  λ w, (tt, mkWorld s (name_static w) (trace w)).

Definition load_wifi_status : M InterfaceStatus :=
  λ w, (m_wifi_status w, w).

Definition init_name_static (n : string) : M unit :=
  λ w, (tt, mkWorld (m_wifi_status w) (Some n) (trace w)).

(** DBus calls: the call is recorded, the client's answer returned. *)
Definition dbus_GetInterfaces (dbus : DBusClient) : M (option (list string)) :=
  emit CallGetInterfaces;; mret (networkconfig1_GetInterfaces dbus).

Definition dbus_GetParam (dbus : DBusClient) (intf key : string) : M (option string) :=
  emit (CallGetParam intf key);; mret (networkconfig1_GetParam dbus intf key).

Definition dbus_GetStatus (dbus : DBusClient) (iname : string) : M (option InterfaceStatus) :=
  emit (CallGetStatus iname);; mret (networkconfig1_GetStatus dbus iname).

(** The notifications among a trace. *)
Definition notification (e : Effect) : option (WifiState * bool) :=
  match e with
  | onWIFIStateChanged st lnf => Some (st, lnf)
  | _ => None
  end.

Definition notifications (t : list Effect) : list (WifiState * bool) :=
  omap notification t.

(** ** [std::string] helpers used by the source *)

(** [s.find(needle)]: index of the first occurrence, [None] for [npos]. *)
Fixpoint find (needle s : string) {struct s} : option nat :=
  if String.prefix needle s then Some 0%nat
  else match s with
       | EmptyString => None
       | String _ s' => S <$> find needle s'
       end.

(** [s.substr(pos)]: the characters from [pos] on; [None] is the
    [std::out_of_range] thrown when [pos > s.size()]. *)
Fixpoint substr (s : string) (pos : nat) {struct pos} : option string :=
  match pos, s with
  | O, _ => Some s
  | S p, String _ s' => substr s' p
  | S _, EmptyString => None
  end.

(** ** The source functions of [WifiManagerState] *)

(** Modelled from the spec: the macro [returnResponse] of [UtilsJsonRpc.h],
    which is not among the sources. Every response carries the boolean
    field [success]; the macro stores it and returns from the handler. *)
Definition returnResponse (success : bool) (response : JsonObject) : Z * JsonObject :=
  (ERROR_NONE, <["success" := JBool success]> response).

(** The [for] loop of [fetchWifiInterfaceName], from the interfaces still
    to visit. *)
Fixpoint fetchWifiInterfaceName_loop (dbus : DBusClient) (interfaces : list string)
  : M string :=
  match interfaces with
  | [] => mret ""
  | intf :: rest =>
      type ← dbus_GetParam dbus intf "type";
      match type with
      | Some t =>
          if decide (t = "wifi") then mret intf
          else fetchWifiInterfaceName_loop dbus rest
      | None => fetchWifiInterfaceName_loop dbus rest
      end
  end.

Definition fetchWifiInterfaceName (dbus : DBusClient) : M string :=
  interfaces ← dbus_GetInterfaces dbus;
  match interfaces with
  | Some l => fetchWifiInterfaceName_loop dbus l
  | None =>
      emit (LOGWARN "failed to fetch interfaces via networkconfig1_GetInterfaces" []);;
      mret ""
  end.

(** The static local is initialised by the first call and only read by the
    later ones. *)
Definition getWifiInterfaceName (dbus : DBusClient) : M string :=
  λ w,
    match name_static w with
    | Some name => (name, w)
    | None =>
        (name ← fetchWifiInterfaceName dbus;
         init_name_static name;;
         mret name) w
    end.

Definition updateWifiStatus (status : InterfaceStatus) : M unit :=
  store_wifi_status status;;
  current ← load_wifi_status;
  match statusToState !! current with
  | Some state => emit (onWIFIStateChanged state false)
  | None => emit (LOGWARN "unknown state: %d" [ArgStatus current])
  end.

Definition Initialize (dbus : DBusClient) : M unit :=
  name ← getWifiInterfaceName dbus;
  if decide (name = "") then
    emit (LOGWARN "No 'wifi' interface found" [])
  else
    emit CallRegisterStatusChanged;;
    iname ← getWifiInterfaceName dbus;
    status ← dbus_GetStatus dbus iname;
    match status with
    | Some st => updateWifiStatus st
    | None => emit (LOGWARN "failed to get interface '%s' status" [ArgStr iname])
    end.

Definition getCurrentState (parameters response : JsonObject) : M (Z * JsonObject) :=
  current ← load_wifi_status;
  match statusToState !! current with
  | Some state =>
      mret (returnResponse true (<["state" := JInt (WifiState_to_int state)]> response))
  | None =>
      emit (LOGWARN "unknown state: %d" [ArgStatus current]);;
      mret (returnResponse false response)
  end.

(** The six placeholder fields assigned before [returnResponse(ret)]. *)
Definition placeholders (response : JsonObject) : JsonObject :=
  <["frequency" := JString ""]>
    (<["signalStrength" := JString ""]>
      (<["security" := JString ""]>
        (<["noise" := JString ""]>
          (<["rate" := JString ""]>
            (<["bssid" := JString ""]> response))))).

(** [None] is an exception leaving the handler ([substr] is the only
    call that can throw). *)
Definition getConnectedSSID (dbus : DBusClient) (parameters response : JsonObject)
  : M (option (Z * JsonObject)) :=
  wifiInterface ← getWifiInterfaceName dbus;
  if decide (wifiInterface = "") then
    mret (Some (returnResponse false (placeholders response)))
  else
    netid ← dbus_GetParam dbus wifiInterface "netid";
    match netid with
    | Some netid =>
        match find ":" netid with
        | Some pos =>
            match substr netid (pos + 1) with
            | Some ssid =>
                mret (Some (returnResponse true
                              (placeholders (<["ssid" := JString ssid]> response))))
            | None => mret None
            end
        | None =>
            emit (LOGWARN "failed to parse ssid from netid" []);;
            mret (Some (returnResponse false (placeholders response)))
        end
    | None =>
        emit (LOGWARN "failed to retrieve wifi netid param" []);;
        mret (Some (returnResponse false (placeholders response)))
    end.

Definition statusChanged (dbus : DBusClient) (interface : string)
    (status : InterfaceStatus) : M unit :=
  name ← getWifiInterfaceName dbus;
  if decide (interface = name) then updateWifiStatus status else mret tt.

Definition setEnabled (parameters response : JsonObject) : M (Z * JsonObject) :=
  mret (returnResponse false response).

Definition getSupportedSecurityModes (parameters response : JsonObject)
  : M (Z * JsonObject) :=
  mret (returnResponse false response).

(** ** The bridge as a machine driven by its callers *)

(** The entry points the host, the bus and the request threads call. *)
Inductive Call : Type :=
  | CallInitialize (dbus : DBusClient)
  | CallStatusChanged (dbus : DBusClient) (interface : string) (status : InterfaceStatus)
  | CallGetCurrentState (parameters response : JsonObject)
  | CallGetConnectedSSID (dbus : DBusClient) (parameters response : JsonObject)
  | CallSetEnabled (parameters response : JsonObject)
  | CallGetSupportedSecurityModes (parameters response : JsonObject)
  | CallGetWifiInterfaceName (dbus : DBusClient).

Definition perform (c : Call) (w : World) : World :=
  match c with
  | CallInitialize dbus => (Initialize dbus w).2
  | CallStatusChanged dbus interface status => (statusChanged dbus interface status w).2
  | CallGetCurrentState parameters response => (getCurrentState parameters response w).2
  | CallGetConnectedSSID dbus parameters response =>
      (getConnectedSSID dbus parameters response w).2
  | CallSetEnabled parameters response => (setEnabled parameters response w).2
  | CallGetSupportedSecurityModes parameters response =>
      (getSupportedSecurityModes parameters response w).2
  | CallGetWifiInterfaceName dbus => (getWifiInterfaceName dbus w).2
  end.

Definition run (cs : list Call) (w : World) : World :=
  foldl (λ w c, perform c w) w cs.

(** The process before any call: the static is not initialised, nothing
    has been called; the initial [m_wifi_status] is the header's. *)
Definition process_start (initial : InterfaceStatus) : World :=
  mkWorld initial None [].

(** Status events delivered in a row to [updateWifiStatus]. *)
Definition feed (statuses : list InterfaceStatus) (w : World) : World :=
  foldl (λ w s, (updateWifiStatus s w).2) w statuses.

(** Every run of [fetchWifiInterfaceName] starts with one
    [networkconfig1_GetInterfaces] call and nothing else makes that call:
    these calls count the runs. *)
Definition is_fetch_call (e : Effect) : bool :=
  match e with
  | CallGetInterfaces => true
  | _ => false
  end.

Definition fetch_calls (t : list Effect) : nat :=
  length (filter is_fetch_call t).

(** ** Sample environments *)

(** A box with a wired interface only. *)
Definition dbus_wired_only : DBusClient :=
  mkDBusClient (Some ["eth0"])
    (λ intf key,
       if decide (intf = "eth0" ∧ key = "type") then Some "ethernet" else None)
    (λ _, None).

(** A box with a wired interface and two radios; [status] and [netid] are
    the answers for [wlan0]. *)
Definition dbus_wlan (status : option InterfaceStatus) (netid : option string)
  : DBusClient :=
  mkDBusClient (Some ["eth0"; "wlan0"; "wlan1"])
    (λ intf key,
       if decide (key = "type") then
         Some (if decide (intf = "eth0") then "ethernet" else "wifi")
       else if decide (intf = "wlan0" ∧ key = "netid") then netid
       else None)
    (λ iname, if decide (iname = "wlan0") then status else None).

(** ** Vocabulary of the properties *)

(** The logical state the mapper computes for a raw status ([None] for a
    status outside the table). *)
Definition logical (s : InterfaceStatus) : option WifiState := statusToState !! s.

(** The [type] query on an interface succeeds and answers [wifi]. *)
Definition is_wifi (dbus : DBusClient) (intf : string) : Prop :=
  networkconfig1_GetParam dbus intf "type" = Some "wifi".

#[global] Instance is_wifi_dec (dbus : DBusClient) (intf : string) :
  Decision (is_wifi dbus intf).
Proof. unfold is_wifi. apply _. Defined.

(** What an operation may do to the world: [m_wifi_status] and the static
    name are kept and the trace grows by [t]. *)
Definition appends (t : list Effect) (w w' : World) : Prop :=
  w' = mkWorld (m_wifi_status w) (name_static w) (trace w ++ t).

(** The character the source looks for in a [netid]. *)
Definition colon : ascii := ":"%char.

(** The string has a [':'] somewhere. *)
Definition has_colon (s : string) : Prop := colon ∈ String.list_ascii_of_string s.

#[global] Instance has_colon_dec (s : string) : Decision (has_colon s).
Proof. unfold has_colon. apply _. Defined.

(** The static name agrees with the resolutions run so far: none while it
    is not initialised, one once it is. *)
Definition cache_inv (w : World) : Prop :=
  fetch_calls (trace w) = match name_static w with
                          | Some _ => 1%nat
                          | None => 0%nat
                          end.

(** A step that keeps [cache_inv] and never changes an initialised
    static. *)
Definition cache_step (w w' : World) : Prop :=
  (cache_inv w → cache_inv w') ∧
  (∀ n : string, name_static w = Some n → name_static w' = Some n).

(** Every run of [m] is an [R]-step of the world. *)
Definition preserves (R : relation World) {A : Type} (m : M A) : Prop :=
  ∀ w : World, R w (m w).2.

(** ** Vocabulary of the further properties *)

(** What name resolution may do: list the interfaces, ask for a
    parameter, log a warning. *)
Definition is_resolution_effect (e : Effect) : bool :=
  match e with
  | CallGetInterfaces | CallGetParam _ _ | LOGWARN _ _ => true
  | _ => false
  end.

(** The [type] queries made for a run of interfaces, in order. *)
Definition type_queries (l : list string) : list Effect :=
  (λ intf, CallGetParam intf "type") <$> l.

Definition is_registration (e : Effect) : bool :=
  match e with
  | CallRegisterStatusChanged => true
  | _ => false
  end.

(** How many times the bridge subscribed to status changes. *)
Definition registrations (t : list Effect) : nat :=
  length (filter is_registration t).

Definition status_query (e : Effect) : option string :=
  match e with
  | CallGetStatus iname => Some iname
  | _ => None
  end.

(** The interfaces whose status was queried, in order. *)
Definition status_queries (t : list Effect) : list string :=
  omap status_query t.

(** The calls that only ask: everything but [Initialize] and the status
    callback. *)
Definition is_query (c : Call) : bool :=
  match c with
  | CallInitialize _ | CallStatusChanged _ _ _ => false
  | _ => true
  end.

(** A step that leaves the Snapshot, the notifications and the
    subscriptions as they were. *)
Definition quiet_step (w w' : World) : Prop :=
  m_wifi_status w' = m_wifi_status w ∧
  notifications (trace w') = notifications (trace w) ∧
  registrations (trace w') = registrations (trace w).

(** A notification of one of the four states of the table, with
    [isLNF = false]. *)
Definition reportable (n : WifiState * bool) : Prop :=
  n.1 ∈ [DISABLED; DISCONNECTED; CONNECTING; CONNECTED] ∧ n.2 = false.

(** A step that adds reportable notifications only. *)
Definition reportable_step (w w' : World) : Prop :=
  Forall reportable (notifications (trace w)) →
  Forall reportable (notifications (trace w')).

(** A status-change event as the bus delivers it, with the answers the
    DBus client would give while it is handled. *)
Record StatusEvent : Type := mkStatusEvent {
  event_dbus : DBusClient;
  event_interface : string;
  event_status : InterfaceStatus;
}.

(** The callback run on each event in turn. *)
Definition deliver_events (events : list StatusEvent) (w : World) : World :=
  foldl (λ w e, (statusChanged (event_dbus e) (event_interface e) (event_status e) w).2)
        w events.

(** The statuses of the events that name the interface [name]. *)
Definition accepted (name : string) (events : list StatusEvent) : list InterfaceStatus :=
  event_status <$> filter (λ e, event_interface e = name) events.

(** The field names [getConnectedSSID] may assign. *)
Definition getConnectedSSID_fields : list string :=
  ["success"; "ssid"; "bssid"; "rate"; "noise"; "security"; "signalStrength";
   "frequency"].

(** ** The HDCP bridge *)

Module HdcpProfile.

(** Modelled from the spec: the HDCP logical states. [HdcpProfile.cpp] is
    not among the sources; the header only declares the handlers. These
    are the states the specification enumerates for the HDCP domain. *)
Inductive LogicalState : Type :=
  | UNPOWERED
  | UNAUTHENTICATED
  | AUTHENTICATED
  | INPUT_HOT_PLUG
  | INPUT_HOT_UNPLUG
  | INPUT_AUTHENTICATED
  | INPUT_UNAUTHENTICATED
  | OUTPUT_NOT_SECURE.

(** Modelled from the spec: the Snapshot of the HDCP bridge, the two
    correlated signals it tracks: the auxiliary boolean
    [HDMI connected] and the last raw HDCP status event (none before
    the first one). *)
Record Snapshot : Type := mkSnapshot {
  hdmiConnected : bool;
  lastHdcpEvent : option Z;
}.

Section Bridge.

(** The value of [connectStatus] that means connected, and the raw
    HDCP table of the State Mapper: both live in headers that are not
    among the sources, and the specification fixes neither. *)
Variable HDMI_HOT_PLUG_EVENT_CONNECTED : Z.
Variable rawToState : Z → option LogicalState.

(** Modelled from the spec: the HDCP State Mapper of section 4.2. The
    HDCP status is reportable only while hot-plug is in the connected
    state; on disconnect it is treated as unauthenticated whatever the
    last raw event was. Before any raw event, and for a raw event
    outside the table, a connected output reports [None] (unknown). *)
Definition map (connected : bool) (raw : option Z) : option LogicalState :=
  if connected then raw ≫= rawToState else Some UNAUTHENTICATED.

(** Modelled from the spec: [getHDCPStatus], the status the bridge
    reports for its current Snapshot. *)
Definition getHDCPStatus (s : Snapshot) : option LogicalState :=
  map (hdmiConnected s) (lastHdcpEvent s).

(** Modelled from the spec: [onHdmiOutputHotPlug], which records the
    hot-plug signal and hands the status now reported to the
    subscribers. *)
Definition onHdmiOutputHotPlug (connectStatus : Z) (s : Snapshot)
  : Snapshot * option LogicalState :=
  let s' := mkSnapshot (bool_decide (connectStatus = HDMI_HOT_PLUG_EVENT_CONNECTED))
                       (lastHdcpEvent s) in
  (s', getHDCPStatus s').

(** Modelled from the spec: [onHdmiOutputHDCPStatusEvent], which
    records the raw HDCP status event. *)
Definition onHdmiOutputHDCPStatusEvent (raw : Z) (s : Snapshot)
  : Snapshot * option LogicalState :=
  let s' := mkSnapshot (hdmiConnected s) (Some raw) in
  (s', getHDCPStatus s').

(** Modelled from the spec: the two kinds of event the HDMI bus delivers
    to [dsHdmiEventHandler], which hands each to its handler. *)
Inductive HdmiEvent : Type :=
  | HotPlug (connectStatus : Z)
  | HDCPStatus (raw : Z).

Definition dsHdmiEventHandler (e : HdmiEvent) (s : Snapshot) : Snapshot :=
  match e with
  | HotPlug connectStatus => (onHdmiOutputHotPlug connectStatus s).1
  | HDCPStatus raw => (onHdmiOutputHDCPStatusEvent raw s).1
  end.

(** Events delivered one after the other. *)
Definition deliver (es : list HdmiEvent) (s : Snapshot) : Snapshot :=
  foldl (λ s e, dsHdmiEventHandler e s) s es.

End Bridge.

(** A sample raw table, for running the bridge: raw status 2 is an
    authenticated link, 0 an unpowered one, anything else is not
    authenticated. *)
Definition sample_rawToState (raw : Z) : option LogicalState :=
  if decide (raw = 2) then Some AUTHENTICATED
  else if decide (raw = 0) then Some UNPOWERED
  else Some UNAUTHENTICATED.

End HdcpProfile.

(** * Properties *)

(** ** The mapping table *)

Lemma statusToState_Unlisted (raw : Z) : statusToState !! Unlisted raw = None.
Proof.
  unfold statusToState. simpl.
  by rewrite !lookup_insert_ne, lookup_empty.
Qed.

Lemma statusToState_dom :
  dom statusToState =
    ({[ Disabled; Disconnected; Associating; Dormant; Binding; Assigned; Scanning ]}
       : gset InterfaceStatus).
Proof.
  unfold statusToState. simpl.
  rewrite !dom_insert_L, dom_empty_L. set_solver.
Qed.

(** C2: the table maps Disabled to DISABLED, Disconnected to DISCONNECTED,
    Associating to CONNECTING, Dormant to DISCONNECTED, Binding to
    CONNECTING, Assigned to CONNECTED and Scanning to CONNECTING, and it
    has no other entry: its keys are exactly these seven, it has seven
    entries, and no other status value is mapped. *)
Theorem statusToState_as_documented :
  statusToState !! Disabled = Some DISABLED ∧
  statusToState !! Disconnected = Some DISCONNECTED ∧
  statusToState !! Associating = Some CONNECTING ∧
  statusToState !! Dormant = Some DISCONNECTED ∧
  statusToState !! Binding = Some CONNECTING ∧
  statusToState !! Assigned = Some CONNECTED ∧
  statusToState !! Scanning = Some CONNECTING ∧
  dom statusToState =
    ({[ Disabled; Disconnected; Associating; Dormant; Binding; Assigned; Scanning ]}
       : gset InterfaceStatus) ∧
  size statusToState = 7%nat ∧
  (∀ raw : Z, statusToState !! Unlisted raw = None).
Proof.
  repeat split;
    first [ apply statusToState_dom
          | apply statusToState_Unlisted
          | vm_compute; reflexivity ].
Qed.

(** ** Frame lemmas for the primitives *)

Lemma notifications_app (t1 t2 : list Effect) :
  notifications (t1 ++ t2) = notifications t1 ++ notifications t2.
Proof. unfold notifications. apply omap_app. Qed.

Lemma fetch_calls_app (t1 t2 : list Effect) :
  fetch_calls (t1 ++ t2) = (fetch_calls t1 + fetch_calls t2)%nat.
Proof. unfold fetch_calls. by rewrite filter_app, length_app. Qed.

Lemma appends_nil (w : World) : appends [] w w.
Proof. unfold appends. rewrite app_nil_r. by destruct w. Qed.

Lemma appends_trans (t1 t2 : list Effect) (w1 w2 w3 : World) :
  appends t1 w1 w2 → appends t2 w2 w3 → appends (t1 ++ t2) w1 w3.
Proof. unfold appends. intros -> ->. simpl. by rewrite app_assoc. Qed.

Lemma emit_appends (e : Effect) (w : World) : appends [e] w (emit e w).2.
Proof. reflexivity. Qed.

(** ** The update path *)

Lemma updateWifiStatus_unfold (status : InterfaceStatus) (w : World) :
  (updateWifiStatus status w).2 =
    mkWorld status (name_static w)
      (trace w ++ [match statusToState !! status with
                   | Some state => onWIFIStateChanged state false
                   | None => LOGWARN "unknown state: %d" [ArgStatus status]
                   end]).
Proof.
  unfold updateWifiStatus, mbind, M_bind, store_wifi_status, load_wifi_status. simpl.
  by destruct (statusToState !! status).
Qed.

Lemma updateWifiStatus_notifications (status : InterfaceStatus) (w : World) :
  notifications (trace (updateWifiStatus status w).2) =
    notifications (trace w) ++
      match statusToState !! status with
      | Some state => [(state, false)]
      | None => []
      end.
Proof.
  rewrite updateWifiStatus_unfold. simpl. rewrite notifications_app.
  by destruct (statusToState !! status).
Qed.

Lemma feed_notifications (statuses : list InterfaceStatus) (w : World) :
  notifications (trace (feed statuses w)) =
    notifications (trace w) ++
      ((λ state, (state, false)) <$> omap (λ s, statusToState !! s) statuses).
Proof.
  revert w. induction statuses as [|s statuses IH]; intros w; simpl.
  - by rewrite app_nil_r.
  - unfold feed in *. simpl. rewrite IH, updateWifiStatus_notifications.
    rewrite <- app_assoc. f_equal.
    by destruct (statusToState !! s).
Qed.

Lemma feed_m_wifi_status (statuses : list InterfaceStatus) (w : World) :
  m_wifi_status (feed statuses w) = default (m_wifi_status w) (last statuses).
Proof.
  revert w. induction statuses as [|s statuses IH]; intros w; [done|].
  unfold feed in *. simpl. rewrite IH, updateWifiStatus_unfold, last_cons. simpl.
  by destruct (last statuses).
Qed.

(** C1 (as the code has it): [updateWifiStatus] stores the incoming status
    and calls [onWIFIStateChanged] exactly when that status is in the
    mapping table, with the mapped state and [isLNF = false], whatever
    the previous Snapshot was; a run of incoming statuses produces one
    notification per status of the table, in order. Hence the same mapped
    status delivered twice gives two notifications, and Associating,
    Scanning, Binding give three, all CONNECTING. *)
Theorem updateWifiStatus_notifies_every_mapped_status :
  (∀ (status : InterfaceStatus) (w : World),
      m_wifi_status (updateWifiStatus status w).2 = status ∧
      notifications (trace (updateWifiStatus status w).2) =
        notifications (trace w) ++
          match statusToState !! status with
          | Some state => [(state, false)]
          | None => []
          end) ∧
  (∀ (statuses : list InterfaceStatus) (w : World),
      notifications (trace (feed statuses w)) =
        notifications (trace w) ++
          ((λ state, (state, false)) <$> omap (λ s, statusToState !! s) statuses)) ∧
  (∀ (status : InterfaceStatus) (w : World),
      notifications (trace (feed [status; status] w)) =
        notifications (trace w) ++
          match statusToState !! status with
          | Some state => [(state, false); (state, false)]
          | None => []
          end) ∧
  (∀ w : World,
      notifications (trace (feed [Associating; Scanning; Binding] w)) =
        notifications (trace w) ++
          [(CONNECTING, false); (CONNECTING, false); (CONNECTING, false)]).
Proof.
  split; [|split; [|split]].
  - intros status w. split.
    + by rewrite updateWifiStatus_unfold.
    + apply updateWifiStatus_notifications.
  - apply feed_notifications.
  - intros status w. rewrite feed_notifications. simpl.
    by destruct (statusToState !! status).
  - intros w. by rewrite feed_notifications.
Qed.

(** C1 (as stated) fails: with Associating in the Snapshot, a second
    Associating event notifies again although the logical state is the
    same, so two identical events give two notifications, and
    Associating, Scanning, Binding give three. *)
Lemma updateWifiStatus_notifies_without_change :
  let w := process_start Associating in
  logical Associating = logical (m_wifi_status w) ∧
  notifications (trace (updateWifiStatus Associating w).2) ≠ notifications (trace w) ∧
  length (notifications (trace (feed [Associating; Associating] (process_start Disconnected))))
    = 2%nat ∧
  length (notifications
            (trace (feed [Associating; Scanning; Binding] (process_start Disconnected))))
    = 3%nat ∧
  ¬ (∀ (status : InterfaceStatus) (w : World),
        notifications (trace (updateWifiStatus status w).2) ≠ notifications (trace w)
        ↔ logical status ≠ logical (m_wifi_status w)).
Proof.
  simpl. split; [reflexivity|]. split; [vm_compute; congruence|].
  split; [reflexivity|]. split; [reflexivity|].
  intros H.
  destruct (H Associating (process_start Associating)) as [H1 _].
  apply H1; [vm_compute; congruence | reflexivity].
Qed.

(** ** Query of the current state *)

(** C4: [getCurrentState] always returns [ERROR_NONE] and a response with
    a boolean [success]; when the Snapshot status is in the table,
    [success] is true and [state] is the integer value of the mapped
    state; when it is not, [success] is false. The Snapshot is only read. *)
Theorem getCurrentState_response (parameters response : JsonObject) (w : World) :
  let r := (getCurrentState parameters response w).1 in
  r.1 = ERROR_NONE ∧
  (∃ b : bool, r.2 !! "success" = Some (JBool b)) ∧
  (∀ state : WifiState,
      statusToState !! m_wifi_status w = Some state →
      r.2 !! "success" = Some (JBool true) ∧
      r.2 !! "state" = Some (JInt (WifiState_to_int state))) ∧
  (statusToState !! m_wifi_status w = None →
      r.2 !! "success" = Some (JBool false)) ∧
  m_wifi_status (getCurrentState parameters response w).2 = m_wifi_status w.
Proof.
  unfold getCurrentState, mbind, M_bind, load_wifi_status, returnResponse. simpl.
  destruct (statusToState !! m_wifi_status w) as [state|] eqn:Hs; simpl.
  - split; [done|]. split; [|split; [|split]].
    + exists true. by rewrite lookup_insert_eq.
    + intros state' [= <-]. split; [by rewrite lookup_insert_eq|].
      rewrite lookup_insert_ne by done. by rewrite lookup_insert_eq.
    + done.
    + done.
  - split; [done|]. split; [|split; [|split]].
    + exists false. by rewrite lookup_insert_eq.
    + done.
    + intros _. by rewrite lookup_insert_eq.
    + done.
Qed.

Lemma getCurrentState_response_witness :
  (let r := (getCurrentState ∅ ∅ (process_start Assigned)).1 in
   r.2 !! "success" = Some (JBool true) ∧ r.2 !! "state" = Some (JInt 5)) ∧
  (let r := (getCurrentState ∅ ∅ (process_start (Unlisted 42))).1 in
   r.2 !! "success" = Some (JBool false)).
Proof.
  split.
  - destruct (getCurrentState_response ∅ ∅ (process_start Assigned))
      as (_ & _ & Hin & _).
    apply (Hin CONNECTED). vm_compute. reflexivity.
  - destruct (getCurrentState_response ∅ ∅ (process_start (Unlisted 42)))
      as (_ & _ & _ & Hout & _).
    apply Hout. vm_compute. reflexivity.
Defined.

(** ** Resolution of the wifi interface *)

Lemma fetchWifiInterfaceName_loop_step (dbus : DBusClient) (intf : string)
    (rest : list string) (w : World) :
  fetchWifiInterfaceName_loop dbus (intf :: rest) w =
    if decide (is_wifi dbus intf) then (intf, (emit (CallGetParam intf "type") w).2)
    else fetchWifiInterfaceName_loop dbus rest (emit (CallGetParam intf "type") w).2.
Proof.
  simpl.
  unfold mbind at 1, M_bind at 1, dbus_GetParam, mbind, M_bind, mret, M_ret. simpl.
  destruct (decide (is_wifi dbus intf)) as [H|H]; unfold is_wifi in H.
  - rewrite H. by rewrite decide_True.
  - destruct (networkconfig1_GetParam dbus intf "type") as [t|]; [|done].
    rewrite decide_False; [done|congruence].
Qed.

Lemma fetchWifiInterfaceName_loop_found (dbus : DBusClient) (l1 l2 : list string)
    (n : string) (w : World) :
  Forall (λ i, ¬ is_wifi dbus i) l1 → is_wifi dbus n →
  (fetchWifiInterfaceName_loop dbus (l1 ++ n :: l2) w).1 = n.
Proof.
  intros Hl1 Hn. revert w.
  induction Hl1 as [|i l1 Hi _ IH]; intros w.
  - simpl app. rewrite fetchWifiInterfaceName_loop_step. by rewrite decide_True.
  - simpl app. rewrite fetchWifiInterfaceName_loop_step. by rewrite decide_False.
Qed.

Lemma fetchWifiInterfaceName_loop_none (dbus : DBusClient) (l : list string) (w : World) :
  Forall (λ i, ¬ is_wifi dbus i) l →
  (fetchWifiInterfaceName_loop dbus l w).1 = "".
Proof.
  intros Hl. revert w.
  induction Hl as [|i l Hi _ IH]; intros w; [done|].
  rewrite fetchWifiInterfaceName_loop_step. by rewrite decide_False.
Qed.

Lemma fetchWifiInterfaceName_unfold (dbus : DBusClient) (w : World) :
  fetchWifiInterfaceName dbus w =
    match networkconfig1_GetInterfaces dbus with
    | Some l => fetchWifiInterfaceName_loop dbus l (emit CallGetInterfaces w).2
    | None =>
        ("", (emit (LOGWARN "failed to fetch interfaces via networkconfig1_GetInterfaces" [])
                (emit CallGetInterfaces w).2).2)
    end.
Proof.
  unfold fetchWifiInterfaceName, dbus_GetInterfaces, mbind, M_bind, mret, M_ret. simpl.
  by destruct (networkconfig1_GetInterfaces dbus).
Qed.

(** C6: [fetchWifiInterfaceName] returns the first name of the interface
    listing whose [type] query succeeds with exactly [wifi]; when the
    listing fails, or no listed interface is such, it returns the empty
    string. It is a total function: it always returns. *)
Theorem fetchWifiInterfaceName_first_wifi (dbus : DBusClient) (w : World) :
  (∀ (l1 l2 : list string) (n : string),
      networkconfig1_GetInterfaces dbus = Some (l1 ++ n :: l2) →
      Forall (λ i, ¬ is_wifi dbus i) l1 →
      is_wifi dbus n →
      (fetchWifiInterfaceName dbus w).1 = n) ∧
  (networkconfig1_GetInterfaces dbus = None →
      (fetchWifiInterfaceName dbus w).1 = "") ∧
  (∀ l : list string,
      networkconfig1_GetInterfaces dbus = Some l →
      Forall (λ i, ¬ is_wifi dbus i) l →
      (fetchWifiInterfaceName dbus w).1 = "").
Proof.
  rewrite fetchWifiInterfaceName_unfold. repeat split.
  - intros l1 l2 n -> Hl1 Hn. by apply fetchWifiInterfaceName_loop_found.
  - by intros ->.
  - intros l -> Hl. by apply fetchWifiInterfaceName_loop_none.
Qed.

Lemma fetchWifiInterfaceName_first_wifi_witness :
  (fetchWifiInterfaceName (dbus_wlan None None) (process_start Disconnected)).1 = "wlan0" ∧
  (fetchWifiInterfaceName (mkDBusClient None (λ _ _, None) (λ _, None))
     (process_start Disconnected)).1 = "" ∧
  (fetchWifiInterfaceName dbus_wired_only (process_start Disconnected)).1 = "".
Proof.
  split; [|split].
  - apply (proj1 (fetchWifiInterfaceName_first_wifi (dbus_wlan None None)
                    (process_start Disconnected)) ["eth0"] ["wlan1"] "wlan0").
    + reflexivity.
    + constructor; [vm_compute; congruence | constructor].
    + reflexivity.
  - apply (proj1 (proj2 (fetchWifiInterfaceName_first_wifi
                           (mkDBusClient None (λ _ _, None) (λ _, None))
                           (process_start Disconnected)))).
    reflexivity.
  - apply (proj2 (proj2 (fetchWifiInterfaceName_first_wifi dbus_wired_only
                           (process_start Disconnected))) ["eth0"]).
    + reflexivity.
    + constructor; [vm_compute; congruence | constructor].
Defined.

(** What the resolution writes: its calls and warnings, after the trace
    it found, and nothing else. *)
Lemma fetchWifiInterfaceName_loop_appends (dbus : DBusClient) (l : list string)
    (w : World) :
  ∃ t, appends t w (fetchWifiInterfaceName_loop dbus l w).2 ∧
       fetch_calls t = 0%nat ∧ notifications t = [].
Proof.
  revert w. induction l as [|intf rest IH]; intros w.
  - exists []. split; [apply appends_nil | done].
  - rewrite fetchWifiInterfaceName_loop_step.
    destruct (decide (is_wifi dbus intf)) as [_|_].
    + exists [CallGetParam intf "type"]. split; [apply emit_appends | done].
    + destruct (IH (emit (CallGetParam intf "type") w).2) as (t & Ht & Hf & Hn).
      exists ([CallGetParam intf "type"] ++ t). split; [|split].
      * eapply appends_trans; [apply emit_appends | exact Ht].
      * by rewrite fetch_calls_app, Hf.
      * by rewrite notifications_app, Hn.
Qed.

Lemma fetchWifiInterfaceName_appends (dbus : DBusClient) (w : World) :
  ∃ t, appends t w (fetchWifiInterfaceName dbus w).2 ∧
       fetch_calls t = 1%nat ∧ notifications t = [].
Proof.
  rewrite fetchWifiInterfaceName_unfold.
  destruct (networkconfig1_GetInterfaces dbus) as [l|].
  - destruct (fetchWifiInterfaceName_loop_appends dbus l (emit CallGetInterfaces w).2)
      as (t & Ht & Hf & Hn).
    exists ([CallGetInterfaces] ++ t). split; [|split].
    + eapply appends_trans; [apply emit_appends | exact Ht].
    + by rewrite fetch_calls_app, Hf.
    + by rewrite notifications_app, Hn.
  - eexists [CallGetInterfaces; LOGWARN _ []]. split; [|done].
    unfold appends. simpl. by rewrite <- app_assoc.
Qed.

(** A later call of [getWifiInterfaceName] reads the static and does
    nothing else. *)
Lemma getWifiInterfaceName_cached (dbus : DBusClient) (w : World) (n : string) :
  name_static w = Some n → getWifiInterfaceName dbus w = (n, w).
Proof. unfold getWifiInterfaceName. by intros ->. Qed.

(** The first call runs the resolution once and initialises the static
    with its result. *)
Lemma getWifiInterfaceName_first (dbus : DBusClient) (w : World) :
  name_static w = None →
  (getWifiInterfaceName dbus w).1 = (fetchWifiInterfaceName dbus w).1 ∧
  ∃ t, (getWifiInterfaceName dbus w).2 =
         mkWorld (m_wifi_status w) (Some (fetchWifiInterfaceName dbus w).1)
                 (trace w ++ t) ∧
       fetch_calls t = 1%nat ∧ notifications t = [].
Proof.
  intros Hw. unfold getWifiInterfaceName. rewrite Hw.
  unfold mbind, M_bind, init_name_static, mret, M_ret. simpl.
  split; [done|].
  destruct (fetchWifiInterfaceName_appends dbus w) as (t & Ht & Hf & Hn).
  exists t. split; [|done].
  rewrite Ht. simpl. done.
Qed.

(** After any call the static holds the name that call returned, and the
    Snapshot and the notifications are as before. *)
Lemma getWifiInterfaceName_post (dbus : DBusClient) (w : World) :
  name_static (getWifiInterfaceName dbus w).2 = Some (getWifiInterfaceName dbus w).1 ∧
  m_wifi_status (getWifiInterfaceName dbus w).2 = m_wifi_status w ∧
  notifications (trace (getWifiInterfaceName dbus w).2) = notifications (trace w).
Proof.
  destruct (name_static w) as [n|] eqn:Hw.
  - by rewrite (getWifiInterfaceName_cached dbus w n Hw).
  - destruct (getWifiInterfaceName_first dbus w Hw) as (Hr & t & Ht & _ & Hn).
    rewrite Ht, Hr. simpl. rewrite notifications_app, Hn. by rewrite app_nil_r.
Qed.

(** ** Operations as steps of a preorder on worlds *)

Section Preserved.

Context (R : relation World) `{!PreOrder R}.

Lemma preserves_ret {A : Type} (a : A) : preserves R (mret a).
Proof. intros w. reflexivity. Qed.

Lemma preserves_bind {A B : Type} (m : M A) (k : A → M B) :
  preserves R m → (∀ a, preserves R (k a)) → preserves R (m ≫= k).
Proof.
  intros Hm Hk w. unfold mbind, M_bind.
  transitivity (m w).2; [apply Hm | apply Hk].
Qed.

Lemma preserves_load : preserves R load_wifi_status.
Proof. intros w. reflexivity. Qed.

Lemma preserves_if {A : Type} (P : Prop) `{!Decision P} (m1 m2 : M A) :
  preserves R m1 → preserves R m2 → preserves R (if decide P then m1 else m2).
Proof. by destruct (decide P). Qed.

End Preserved.

#[global] Instance cache_step_preorder : PreOrder cache_step.
Proof.
  split.
  - by intros w.
  - intros w1 w2 w3 [Hi12 Hn12] [Hi23 Hn23]. split; [tauto|].
    intros n Hn. by apply Hn23, Hn12.
Qed.

Lemma cache_step_emit (e : Effect) :
  is_fetch_call e = false → preserves cache_step (emit e).
Proof.
  intros He w. split; [|done].
  unfold cache_inv. simpl. rewrite fetch_calls_app.
  replace (fetch_calls [e]) with 0%nat by (by destruct e).
  by rewrite Nat.add_0_r.
Qed.

Lemma cache_step_store (s : InterfaceStatus) : preserves cache_step (store_wifi_status s).
Proof. by intros w. Qed.

Lemma cache_step_getWifiInterfaceName (dbus : DBusClient) :
  preserves cache_step (getWifiInterfaceName dbus).
Proof.
  intros w. destruct (name_static w) as [n|] eqn:Hw.
  - rewrite (getWifiInterfaceName_cached dbus w n Hw). reflexivity.
  - destruct (getWifiInterfaceName_first dbus w Hw) as (_ & t & Ht & Hf & _).
    split; [|by rewrite Hw].
    unfold cache_inv. rewrite Ht, Hw. simpl. rewrite fetch_calls_app, Hf. lia.
Qed.

Lemma cache_step_dbus_GetParam (dbus : DBusClient) (intf key : string) :
  preserves cache_step (dbus_GetParam dbus intf key).
Proof.
  apply preserves_bind; [apply _ | by apply cache_step_emit | intros; apply preserves_ret; apply _].
Qed.

Lemma cache_step_dbus_GetStatus (dbus : DBusClient) (iname : string) :
  preserves cache_step (dbus_GetStatus dbus iname).
Proof.
  apply preserves_bind; [apply _ | by apply cache_step_emit | intros; apply preserves_ret; apply _].
Qed.

Create HintDb cache_step discriminated.

#[global] Hint Resolve cache_step_emit cache_step_store cache_step_getWifiInterfaceName
  cache_step_dbus_GetParam cache_step_dbus_GetStatus : cache_step.

(** One step of the proof that an operation is a [cache_step]: split a
    bind, a conditional or a match, or close a primitive. *)
Ltac cache_step_tac :=
  repeat first
    [ apply (preserves_bind cache_step); [| intros ?]
    | apply (preserves_ret cache_step)
    | apply (preserves_load cache_step)
    | apply (preserves_if cache_step)
    | solve [ auto with cache_step ]
    | match goal with
      | |- preserves cache_step (match ?x with _ => _ end) => destruct x
      end ].

Lemma cache_step_updateWifiStatus (status : InterfaceStatus) :
  preserves cache_step (updateWifiStatus status).
Proof. unfold updateWifiStatus. cache_step_tac. Qed.

Lemma cache_step_perform (c : Call) (w : World) : cache_step w (perform c w).
Proof.
  pose proof cache_step_updateWifiStatus.
  destruct c; unfold perform;
    match goal with |- cache_step ?w (?m ?w).2 => revert w; change (preserves cache_step m) end.
  - unfold Initialize. cache_step_tac.
  - unfold statusChanged. cache_step_tac.
  - unfold getCurrentState. cache_step_tac.
  - unfold getConnectedSSID. cache_step_tac.
  - unfold setEnabled. cache_step_tac.
  - unfold getSupportedSecurityModes. cache_step_tac.
  - cache_step_tac.
Qed.

Lemma cache_step_run (cs : list Call) (w : World) : cache_step w (run cs w).
Proof.
  revert w. induction cs as [|c cs IH]; intros w; [reflexivity|].
  unfold run in *. simpl. etransitivity; [apply cache_step_perform | apply IH].
Qed.

Lemma cache_inv_process_start (initial : InterfaceStatus) :
  cache_inv (process_start initial).
Proof. reflexivity. Qed.

Lemma cache_inv_fetch_calls_le (w : World) : cache_inv w → (fetch_calls (trace w) ≤ 1)%nat.
Proof. unfold cache_inv. destruct (name_static w); lia. Qed.

(** C7: in a process, whatever calls are made before, between and after
    two calls of [getWifiInterfaceName], and whatever the DBus client
    answers at each of them, the second call returns the string the first
    one returned; the resolution has run at most once at every point of
    the process, and exactly once from the first call on. *)
Theorem getWifiInterfaceName_memoized
    (initial : InterfaceStatus) (before between after : list Call)
    (dbus1 dbus2 : DBusClient) :
  let w1 := run before (process_start initial) in
  let r1 := getWifiInterfaceName dbus1 w1 in
  let w2 := run between r1.2 in
  let r2 := getWifiInterfaceName dbus2 w2 in
  r2.1 = r1.1 ∧
  r2.2 = w2 ∧
  (fetch_calls (trace w1) ≤ 1)%nat ∧
  fetch_calls (trace r1.2) = 1%nat ∧
  fetch_calls (trace (run after r2.2)) = 1%nat.
Proof.
  intros w1 r1 w2 r2.
  assert (Hw1 : cache_inv w1)
    by (apply cache_step_run, cache_inv_process_start).
  assert (Hr1 : cache_inv r1.2)
    by (by apply (cache_step_getWifiInterfaceName dbus1 w1)).
  destruct (getWifiInterfaceName_post dbus1 w1) as (Hn1 & _ & _).
  fold r1 in Hn1.
  assert (Hn2 : name_static w2 = Some r1.1)
    by (by apply (cache_step_run between r1.2)).
  assert (Hr2 : r2 = (r1.1, w2))
    by (by apply getWifiInterfaceName_cached).
  assert (Hw2 : cache_inv w2)
    by (by apply (cache_step_run between r1.2)).
  assert (Hend : cache_inv (run after w2) ∧ name_static (run after w2) = Some r1.1).
  { destruct (cache_step_run after w2) as [Hi Hn]. split; [by apply Hi | by apply Hn]. }
  rewrite Hr2. simpl. split; [done|]. split; [done|].
  split; [by apply cache_inv_fetch_calls_le|]. split.
  - unfold cache_inv in Hr1. by rewrite Hn1 in Hr1.
  - destruct Hend as [Hi Hn]. unfold cache_inv in Hi. by rewrite Hn in Hi.
Qed.

(** ** Status events *)

Lemma statusChanged_unfold (dbus : DBusClient) (interface : string)
    (status : InterfaceStatus) (w : World) :
  statusChanged dbus interface status w =
    if decide (interface = (getWifiInterfaceName dbus w).1)
    then updateWifiStatus status (getWifiInterfaceName dbus w).2
    else (tt, (getWifiInterfaceName dbus w).2).
Proof.
  unfold statusChanged, mbind, M_bind.
  by destruct (decide (interface = (getWifiInterfaceName dbus w).1)).
Qed.

(** C9: an event for an interface other than the resolved wifi interface
    leaves the Snapshot as it was and notifies nobody (all it can do is
    resolve the name, if no call has done so yet); and a call of
    [statusChanged] that changes the Snapshot is for the resolved wifi
    interface. *)
Theorem statusChanged_other_interface (dbus : DBusClient) (interface : string)
    (status : InterfaceStatus) (w : World) :
  let w' := (statusChanged dbus interface status w).2 in
  (interface ≠ (getWifiInterfaceName dbus w).1 →
     w' = (getWifiInterfaceName dbus w).2 ∧
     m_wifi_status w' = m_wifi_status w ∧
     notifications (trace w') = notifications (trace w)) ∧
  (m_wifi_status w' ≠ m_wifi_status w → interface = (getWifiInterfaceName dbus w).1).
Proof.
  simpl. rewrite statusChanged_unfold.
  destruct (getWifiInterfaceName_post dbus w) as (_ & Hm & Hn).
  destruct (decide (interface = (getWifiInterfaceName dbus w).1)) as [He|Hne].
  - done.
  - simpl. split; [done|]. intros Hch. by rewrite Hm in Hch.
Qed.

Lemma statusChanged_other_interface_witness :
  (let w := process_start Disconnected in
   let w' := (statusChanged (dbus_wlan None None) "eth0" Assigned w).2 in
   m_wifi_status w' = Disconnected ∧ notifications (trace w') = []) ∧
  "wlan0" = (getWifiInterfaceName (dbus_wlan None None) (process_start Disconnected)).1.
Proof.
  split.
  - apply (proj1 (statusChanged_other_interface (dbus_wlan None None) "eth0" Assigned
                    (process_start Disconnected))).
    vm_compute. congruence.
  - apply (proj2 (statusChanged_other_interface (dbus_wlan None None) "wlan0" Assigned
                    (process_start Disconnected))).
    vm_compute. congruence.
Defined.

(** ** Initialisation *)

Lemma Initialize_unfold (dbus : DBusClient) (w : World) :
  Initialize dbus w =
    let r := getWifiInterfaceName dbus w in
    if decide (r.1 = "") then emit (LOGWARN "No 'wifi' interface found" []) r.2
    else
      let w2 := (emit (CallGetStatus r.1) (emit CallRegisterStatusChanged r.2).2).2 in
      match networkconfig1_GetStatus dbus r.1 with
      | Some st => updateWifiStatus st w2
      | None => emit (LOGWARN "failed to get interface '%s' status" [ArgStr r.1]) w2
      end.
Proof.
  unfold Initialize. unfold mbind at 1, M_bind at 1. simpl.
  destruct (decide ((getWifiInterfaceName dbus w).1 = "")) as [He|Hne]; [done|].
  destruct (getWifiInterfaceName_post dbus w) as (Hn & _ & _).
  unfold mbind at 1, M_bind at 1. unfold mbind at 1, M_bind at 1.
  rewrite (getWifiInterfaceName_cached dbus (emit CallRegisterStatusChanged _).2
             (getWifiInterfaceName dbus w).1) by exact Hn.
  unfold dbus_GetStatus, mbind, M_bind, mret, M_ret. simpl.
  by destruct (networkconfig1_GetStatus dbus (getWifiInterfaceName dbus w).1).
Qed.

(** C5: when no wifi interface was resolved, or the seed status query
    fails, [Initialize] returns with the Snapshot as it found it and
    without any notification, and the last thing it did was to log the
    warning of that case. *)
Theorem Initialize_degraded (dbus : DBusClient) (w : World) :
  let name := (getWifiInterfaceName dbus w).1 in
  let w' := (Initialize dbus w).2 in
  name = "" ∨ networkconfig1_GetStatus dbus name = None →
  m_wifi_status w' = m_wifi_status w ∧
  notifications (trace w') = notifications (trace w) ∧
  ∃ t : list Effect,
    notifications t = [] ∧
    trace w' =
      trace w ++ t ++
        [if decide (name = "") then LOGWARN "No 'wifi' interface found" []
         else LOGWARN "failed to get interface '%s' status" [ArgStr name]].
Proof.
  intros name w' Hdeg.
  destruct (getWifiInterfaceName_post dbus w) as (Hs & Hm & Hn).
  assert (Ht : ∃ t, trace (getWifiInterfaceName dbus w).2 = trace w ++ t ∧
                    notifications t = []).
  { destruct (name_static w) as [n|] eqn:Hw.
    - rewrite (getWifiInterfaceName_cached dbus w n Hw). exists []. simpl.
      by rewrite app_nil_r.
    - destruct (getWifiInterfaceName_first dbus w Hw) as (_ & t & -> & _ & Hq).
      by exists t. }
  destruct Ht as (t & Ht & Hq).
  subst w'. rewrite Initialize_unfold. simpl. fold name.
  destruct (decide (name = "")) as [He|Hne].
  - simpl. split; [done|]. split.
    + rewrite notifications_app, Hn. simpl. by rewrite app_nil_r.
    + exists t. split; [done|]. by rewrite Ht, <- app_assoc.
  - destruct Hdeg as [He|Hst]; [done|]. rewrite Hst. simpl.
    split; [done|]. split.
    + rewrite !notifications_app, Hn. simpl. by rewrite !app_nil_r.
    + exists (t ++ [CallRegisterStatusChanged; CallGetStatus name]). split.
      * rewrite notifications_app, Hq. done.
      * rewrite Ht, <- !app_assoc. done.
Qed.

Lemma Initialize_degraded_witness :
  (let w' := (Initialize (dbus_wlan None None) (process_start Disconnected)).2 in
   m_wifi_status w' = Disconnected ∧ notifications (trace w') = [] ∧
   last (trace w') =
     Some (LOGWARN "failed to get interface '%s' status" [ArgStr "wlan0"])) ∧
  (let w' := (Initialize dbus_wired_only (process_start Disconnected)).2 in
   m_wifi_status w' = Disconnected ∧ notifications (trace w') = [] ∧
   last (trace w') = Some (LOGWARN "No 'wifi' interface found" [])).
Proof.
  split.
  - destruct (Initialize_degraded (dbus_wlan None None) (process_start Disconnected))
      as (Hm & Hn & _).
    + right. reflexivity.
    + split; [exact Hm|]. split; [exact Hn|]. reflexivity.
  - destruct (Initialize_degraded dbus_wired_only (process_start Disconnected))
      as (Hm & Hn & _).
    + left. reflexivity.
    + split; [exact Hm|]. split; [exact Hn|]. reflexivity.
Defined.

(** ** [std::string::find] and [substr] on a netid *)

Lemma find_colon_cons (a : ascii) (s : string) :
  find ":" (String a s) = if decide (a = colon) then Some 0%nat else S <$> find ":" s.
Proof.
  cbn [find String.prefix]. destruct (ascii_dec ":" a) as [<-|Hne].
  - rewrite decide_True by done. by destruct s.
  - rewrite decide_False by (unfold colon; congruence). done.
Qed.

Lemma find_colon_empty : find ":" "" = None.
Proof. reflexivity. Qed.

Lemma has_colon_cons (a : ascii) (s : string) :
  has_colon (String a s) ↔ a = colon ∨ has_colon s.
Proof.
  unfold has_colon. simpl. rewrite elem_of_cons.
  split; (intros [Ha|Hs]; [left; by symmetry | by right]).
Qed.

Lemma find_colon_absent (s : string) : ¬ has_colon s → find ":" s = None.
Proof.
  induction s as [|a s IH]; intros Hs; [done|].
  rewrite has_colon_cons in Hs. rewrite find_colon_cons.
  rewrite decide_False by tauto. rewrite IH by tauto. done.
Qed.

Lemma append_empty (s : string) : "" +:+ s = s.
Proof. reflexivity. Qed.

Lemma append_String (a : ascii) (s t : string) : String a s +:+ t = String a (s +:+ t).
Proof. reflexivity. Qed.

Lemma find_colon_first (pre post : string) :
  ¬ has_colon pre →
  find ":" (pre +:+ String colon post) = Some (String.length pre).
Proof.
  induction pre as [|a pre IH]; intros Hpre.
  - rewrite append_empty, find_colon_cons. by rewrite decide_True.
  - rewrite has_colon_cons in Hpre. rewrite append_String, find_colon_cons.
    rewrite decide_False by tauto. rewrite IH by tauto. done.
Qed.

Lemma substr_after (pre post : string) (a : ascii) :
  substr (pre +:+ String a post) (String.length pre + 1) = Some post.
Proof.
  induction pre as [|b pre IH]; [done|].
  rewrite append_String. simpl. exact IH.
Qed.

Lemma has_colon_split (s : string) :
  has_colon s → ∃ pre post, s = pre +:+ String colon post ∧ ¬ has_colon pre.
Proof.
  induction s as [|a s IH]; intros Hs.
  - unfold has_colon in Hs. simpl in Hs. by apply not_elem_of_nil in Hs.
  - destruct (decide (a = colon)) as [->|Hne].
    + exists "", s. split; [done|]. unfold has_colon. simpl. apply not_elem_of_nil.
    + apply has_colon_cons in Hs. destruct Hs as [?|Hs]; [done|].
      destruct (IH Hs) as (pre & post & -> & Hpre).
      exists (String a pre), post. split; [done|].
      rewrite has_colon_cons. tauto.
Qed.

Lemma has_colon_app (pre post : string) : has_colon (pre +:+ String colon post).
Proof.
  induction pre as [|a pre IH].
  - rewrite append_empty, has_colon_cons. by left.
  - rewrite append_String, has_colon_cons. by right.
Qed.

(** [find] never answers a position from which [substr] would throw. *)
Lemma find_colon_substr (netid : string) (pos : nat) :
  find ":" netid = Some pos →
  ∃ pre post, netid = pre +:+ String colon post ∧ ¬ has_colon pre ∧
              pos = String.length pre ∧ substr netid (pos + 1) = Some post.
Proof.
  intros Hf.
  destruct (decide (has_colon netid)) as [Hc|Hc].
  - destruct (has_colon_split netid Hc) as (pre & post & -> & Hpre).
    rewrite find_colon_first in Hf by done. injection Hf as <-.
    exists pre, post. by rewrite substr_after.
  - by rewrite find_colon_absent in Hf.
Qed.

(** ** The connected SSID *)

Lemma response_fields (success : bool) (response : JsonObject) :
  let r := returnResponse success (placeholders response) in
  r.1 = ERROR_NONE ∧
  r.2 !! "success" = Some (JBool success) ∧
  r.2 !! "ssid" = response !! "ssid" ∧
  r.2 !! "bssid" = Some (JString "") ∧
  r.2 !! "rate" = Some (JString "") ∧
  r.2 !! "noise" = Some (JString "") ∧
  r.2 !! "security" = Some (JString "") ∧
  r.2 !! "signalStrength" = Some (JString "") ∧
  r.2 !! "frequency" = Some (JString "").
Proof.
  unfold returnResponse, placeholders. simpl.
  repeat split; by simplify_map_eq.
Qed.

(** The response of [getConnectedSSID], from the resolved name and the
    client's answer for its [netid]. *)
Lemma getConnectedSSID_result (dbus : DBusClient) (parameters response : JsonObject)
    (w : World) :
  (getConnectedSSID dbus parameters response w).1 =
    let name := (getWifiInterfaceName dbus w).1 in
    if decide (name = "") then Some (returnResponse false (placeholders response))
    else
      match networkconfig1_GetParam dbus name "netid" with
      | Some netid =>
          match find ":" netid with
          | Some pos =>
              match substr netid (pos + 1) with
              | Some ssid =>
                  Some (returnResponse true
                          (placeholders (<["ssid" := JString ssid]> response)))
              | None => None
              end
          | None => Some (returnResponse false (placeholders response))
          end
      | None => Some (returnResponse false (placeholders response))
      end.
Proof.
  unfold getConnectedSSID. unfold mbind at 1, M_bind at 1. simpl.
  destruct (decide ((getWifiInterfaceName dbus w).1 = "")) as [He|Hne]; [done|].
  unfold dbus_GetParam, mbind, M_bind, mret, M_ret. simpl.
  destruct (networkconfig1_GetParam dbus (getWifiInterfaceName dbus w).1 "netid")
    as [netid|]; [|done].
  destruct (find ":" netid) as [pos|]; [|done].
  by destruct (substr netid (pos + 1)).
Qed.

(** C10: [getConnectedSSID] returns [ERROR_NONE] and a response (no
    exception leaves it); [success] is true exactly when the resolved
    name is not empty, the [netid] query succeeds and the netid has a
    [':'], and is false otherwise; when it is true, [ssid] is what follows
    the first [':'] of the netid; when the query succeeds with a netid
    without [':'], [success] is false and [ssid] is not assigned. *)
Theorem getConnectedSSID_success (dbus : DBusClient) (parameters response : JsonObject)
    (w : World) :
  let name := (getWifiInterfaceName dbus w).1 in
  ∃ obj : JsonObject,
    (getConnectedSSID dbus parameters response w).1 = Some (ERROR_NONE, obj) ∧
    (∃ b : bool, obj !! "success" = Some (JBool b)) ∧
    (obj !! "success" = Some (JBool true) ↔
       name ≠ "" ∧
       ∃ netid, networkconfig1_GetParam dbus name "netid" = Some netid ∧
                has_colon netid) ∧
    (∀ pre post : string,
        name ≠ "" →
        networkconfig1_GetParam dbus name "netid" = Some (pre +:+ String colon post) →
        ¬ has_colon pre →
        obj !! "ssid" = Some (JString post)) ∧
    (∀ netid : string,
        name ≠ "" →
        networkconfig1_GetParam dbus name "netid" = Some netid →
        ¬ has_colon netid →
        obj !! "success" = Some (JBool false) ∧
        obj !! "ssid" = response !! "ssid").
Proof.
  intros name. rewrite getConnectedSSID_result. cbv zeta. fold name.
  destruct (decide (name = "")) as [He|Hne].
  { destruct (response_fields false response) as (Hrc & Hs & _).
    exists (returnResponse false (placeholders response)).2.
    split; [reflexivity|]. split; [by exists false|].
    split; [|done]. rewrite Hs. split; [done | by intros [? _]]. }
  destruct (networkconfig1_GetParam dbus name "netid") as [netid|] eqn:Hq.
  2:{ destruct (response_fields false response) as (Hrc & Hs & _).
      exists (returnResponse false (placeholders response)).2.
      split; [reflexivity|]. split; [by exists false|].
      split; [|done]. rewrite Hs. split; [done | by intros (_ & ? & ? & _)]. }
  destruct (find ":" netid) as [pos|] eqn:Hf.
  - destruct (find_colon_substr netid pos Hf) as (pre & post & -> & Hpre & -> & ->).
    destruct (response_fields true (<["ssid" := JString post]> response))
      as (Hrc & Hs & Hssid & _).
    exists (returnResponse true (placeholders (<["ssid" := JString post]> response))).2.
    split; [reflexivity|]. split; [by exists true|]. split; [|split].
    + split; [|done]. intros _. split; [done|].
      eexists. split; [done|]. apply has_colon_app.
    + intros pre' post' _ [= Heq] Hpre'.
      rewrite Hssid, lookup_insert_eq.
      assert (Hlen : String.length pre' = String.length pre).
      { pose proof (find_colon_first pre post Hpre) as H1.
        pose proof (find_colon_first pre' post' Hpre') as H2.
        rewrite Heq in H1. congruence. }
      pose proof (substr_after pre post colon) as H1.
      pose proof (substr_after pre' post' colon) as H2.
      rewrite Heq, <- Hlen in H1. congruence.
    + intros netid' _ [= <-] Hno. destruct Hno. apply has_colon_app.
  - destruct (response_fields false response) as (Hrc & Hs & Hssid & _).
    assert (Hno : ¬ has_colon netid).
    { intros Hc. destruct (has_colon_split netid Hc) as (pre & post & -> & Hpre).
      by rewrite find_colon_first in Hf. }
    exists (returnResponse false (placeholders response)).2.
    split; [reflexivity|]. split; [by exists false|]. split; [|split].
    + rewrite Hs. split; [done|]. intros (_ & netid' & [= <-] & Hc). done.
    + intros pre post _ [= ->]. destruct Hno. apply has_colon_app.
    + done.
Qed.

Lemma getConnectedSSID_success_witness :
  (∃ obj : JsonObject,
     (getConnectedSSID (dbus_wlan (Some Assigned) (Some "wifi:HomeNet")) ∅ ∅
        (process_start Disconnected)).1 = Some (ERROR_NONE, obj) ∧
     obj !! "success" = Some (JBool true) ∧
     obj !! "ssid" = Some (JString "HomeNet")) ∧
  (∃ obj : JsonObject,
     (getConnectedSSID (dbus_wlan (Some Assigned) (Some "HomeNet")) ∅ ∅
        (process_start Disconnected)).1 = Some (ERROR_NONE, obj) ∧
     obj !! "success" = Some (JBool false) ∧
     obj !! "ssid" = None).
Proof.
  split.
  - destruct (getConnectedSSID_success (dbus_wlan (Some Assigned) (Some "wifi:HomeNet"))
                ∅ ∅ (process_start Disconnected))
      as (obj & Hr & _ & Hiff & Hssid & _).
    exists obj. split; [exact Hr|]. split.
    + apply Hiff. split; [vm_compute; congruence|].
      exists "wifi:HomeNet". split; [reflexivity|]. by apply (bool_decide_unpack _).
    + apply (Hssid "wifi" "HomeNet").
      * vm_compute; congruence.
      * reflexivity.
      * by apply (bool_decide_unpack _).
  - destruct (getConnectedSSID_success (dbus_wlan (Some Assigned) (Some "HomeNet"))
                ∅ ∅ (process_start Disconnected))
      as (obj & Hr & _ & _ & _ & Hno).
    exists obj. split; [exact Hr|].
    apply (Hno "HomeNet").
    + vm_compute; congruence.
    + reflexivity.
    + by apply (bool_decide_unpack _).
Defined.

(** C3 (as the code has it): when no wifi interface was resolved,
    [getConnectedSSID] returns [ERROR_NONE] and a response with
    [success] false and [bssid], [rate], [noise], [security],
    [signalStrength] and [frequency] set to the empty string; it does not
    assign [ssid], which stays as the caller's response had it (absent
    from a fresh response); no exception leaves it. *)
Theorem getConnectedSSID_no_interface (dbus : DBusClient)
    (parameters response : JsonObject) (w : World) :
  (getWifiInterfaceName dbus w).1 = "" →
  ∃ obj : JsonObject,
    (getConnectedSSID dbus parameters response w).1 = Some (ERROR_NONE, obj) ∧
    obj !! "success" = Some (JBool false) ∧
    obj !! "ssid" = response !! "ssid" ∧
    obj !! "bssid" = Some (JString "") ∧
    obj !! "rate" = Some (JString "") ∧
    obj !! "noise" = Some (JString "") ∧
    obj !! "security" = Some (JString "") ∧
    obj !! "signalStrength" = Some (JString "") ∧
    obj !! "frequency" = Some (JString "").
Proof.
  intros Hname. rewrite getConnectedSSID_result. cbv zeta.
  rewrite decide_True by exact Hname.
  destruct (response_fields false response) as (_ & Hfields).
  exists (returnResponse false (placeholders response)).2.
  split; [reflexivity | exact Hfields].
Qed.

Lemma getConnectedSSID_no_interface_witness :
  ∃ obj : JsonObject,
    (getConnectedSSID dbus_wired_only ∅ ∅ (process_start Disconnected)).1 =
      Some (ERROR_NONE, obj) ∧
    obj !! "success" = Some (JBool false) ∧
    obj !! "ssid" = None ∧
    obj !! "bssid" = Some (JString "").
Proof.
  destruct (getConnectedSSID_no_interface dbus_wired_only ∅ ∅ (process_start Disconnected))
    as (obj & Hr & Hs & Hssid & Hb & _).
  - reflexivity.
  - exists obj. split; [exact Hr|]. split; [exact Hs|]. split; [exact Hssid | exact Hb].
Defined.

(** C3 (as stated) fails: on a box without a wifi interface the response
    to a fresh request has no [ssid] field at all, not an [ssid] set to
    the empty string. *)
Lemma getConnectedSSID_leaves_ssid_absent :
  (getWifiInterfaceName dbus_wired_only (process_start Disconnected)).1 = "" ∧
  ∃ obj : JsonObject,
    (getConnectedSSID dbus_wired_only ∅ ∅ (process_start Disconnected)).1 =
      Some (ERROR_NONE, obj) ∧
    obj !! "ssid" = None ∧
    obj !! "ssid" ≠ Some (JString "").
Proof.
  split; [reflexivity|].
  rewrite getConnectedSSID_result. cbv zeta.
  rewrite decide_True by reflexivity.
  destruct (response_fields false (∅ : JsonObject)) as (_ & _ & Hssid & _).
  exists (returnResponse false (placeholders ∅)).2.
  split; [reflexivity|].
  rewrite Hssid, lookup_empty. done.
Qed.

(** ** HDCP: hot-plug and HDCP status combined *)

Lemma deliver_HDCPStatus_hdmiConnected (HDMI_HOT_PLUG_EVENT_CONNECTED : Z)
    (rawToState : Z → option HdcpProfile.LogicalState) (raws : list Z)
    (s : HdcpProfile.Snapshot) :
  HdcpProfile.hdmiConnected
    (HdcpProfile.deliver HDMI_HOT_PLUG_EVENT_CONNECTED rawToState
       (HdcpProfile.HDCPStatus <$> raws) s)
  = HdcpProfile.hdmiConnected s.
Proof.
  revert s. induction raws as [|raw raws IH]; intros s; [done|].
  unfold HdcpProfile.deliver in *. simpl. by rewrite IH.
Qed.

(** C8: whatever events the HDMI bus delivered before (in particular
    whatever the last raw HDCP status was), a hot-plug event that is not
    the connected one makes the bridge report UNAUTHENTICATED at once:
    to the subscribers of that event, to the status query, and for as
    long as only raw HDCP status events follow. *)
Theorem hot_unplug_forces_unauthenticated (HDMI_HOT_PLUG_EVENT_CONNECTED : Z)
    (rawToState : Z → option HdcpProfile.LogicalState)
    (history : list HdcpProfile.HdmiEvent) (s0 : HdcpProfile.Snapshot)
    (connectStatus : Z) (later : list Z) :
  connectStatus ≠ HDMI_HOT_PLUG_EVENT_CONNECTED →
  let s := HdcpProfile.deliver HDMI_HOT_PLUG_EVENT_CONNECTED rawToState history s0 in
  let r := HdcpProfile.onHdmiOutputHotPlug HDMI_HOT_PLUG_EVENT_CONNECTED rawToState
             connectStatus s in
  r.2 = Some HdcpProfile.UNAUTHENTICATED ∧
  HdcpProfile.getHDCPStatus rawToState r.1 = Some HdcpProfile.UNAUTHENTICATED ∧
  HdcpProfile.getHDCPStatus rawToState
    (HdcpProfile.deliver HDMI_HOT_PLUG_EVENT_CONNECTED rawToState
       (HdcpProfile.HDCPStatus <$> later) r.1)
  = Some HdcpProfile.UNAUTHENTICATED.
Proof.
  intros Hne s r.
  assert (Hr : HdcpProfile.hdmiConnected r.1 = false).
  { subst r. simpl. by rewrite bool_decide_eq_false_2. }
  split; [|split].
  - subst r. unfold HdcpProfile.onHdmiOutputHotPlug, HdcpProfile.getHDCPStatus,
      HdcpProfile.map. simpl. by rewrite bool_decide_eq_false_2.
  - unfold HdcpProfile.getHDCPStatus, HdcpProfile.map. by rewrite Hr.
  - unfold HdcpProfile.getHDCPStatus, HdcpProfile.map.
    by rewrite deliver_HDCPStatus_hdmiConnected, Hr.
Qed.

Lemma hot_unplug_forces_unauthenticated_witness :
  let s := HdcpProfile.deliver 0 HdcpProfile.sample_rawToState
             [HdcpProfile.HotPlug 0; HdcpProfile.HDCPStatus 2]
             (HdcpProfile.mkSnapshot false None) in
  HdcpProfile.getHDCPStatus HdcpProfile.sample_rawToState s
    = Some HdcpProfile.AUTHENTICATED ∧
  (HdcpProfile.onHdmiOutputHotPlug 0 HdcpProfile.sample_rawToState 1 s).2
    = Some HdcpProfile.UNAUTHENTICATED.
Proof.
  split; [reflexivity|].
  apply (hot_unplug_forces_unauthenticated 0 HdcpProfile.sample_rawToState
           [HdcpProfile.HotPlug 0; HdcpProfile.HDCPStatus 2]
           (HdcpProfile.mkSnapshot false None) 1 []).
  lia.
Defined.

(** * Further properties of the Wifi bridge *)

(** ** What name resolution does on the bus *)

Lemma fetchWifiInterfaceName_loop_sound (dbus : DBusClient) (l : list string)
    (w : World) :
  (fetchWifiInterfaceName_loop dbus l w).1 ≠ "" →
  (fetchWifiInterfaceName_loop dbus l w).1 ∈ l ∧
  is_wifi dbus (fetchWifiInterfaceName_loop dbus l w).1.
Proof.
  revert w. induction l as [|intf rest IH]; intros w; [done|].
  rewrite fetchWifiInterfaceName_loop_step.
  destruct (decide (is_wifi dbus intf)) as [Hw|Hw].
  - intros _. split; [apply list_elem_of_here | exact Hw].
  - intros Hne. destruct (IH _ Hne) as [Hin Hwifi].
    split; [by apply list_elem_of_further | exact Hwifi].
Qed.

(** X9: a non-empty name returned by [fetchWifiInterfaceName] is one of
    the listed interfaces, and its [type] query answers [wifi]. *)
Theorem fetchWifiInterfaceName_sound (dbus : DBusClient) (w : World) :
  (fetchWifiInterfaceName dbus w).1 ≠ "" →
  ∃ l : list string,
    networkconfig1_GetInterfaces dbus = Some l ∧
    (fetchWifiInterfaceName dbus w).1 ∈ l ∧
    is_wifi dbus (fetchWifiInterfaceName dbus w).1.
Proof.
  rewrite fetchWifiInterfaceName_unfold.
  destruct (networkconfig1_GetInterfaces dbus) as [l|]; [|done].
  intros Hne. exists l. split; [done|].
  by apply fetchWifiInterfaceName_loop_sound.
Qed.

Lemma fetchWifiInterfaceName_sound_witness :
  ∃ l : list string,
    networkconfig1_GetInterfaces (dbus_wlan None None) = Some l ∧
    (fetchWifiInterfaceName (dbus_wlan None None) (process_start Disconnected)).1 ∈ l ∧
    is_wifi (dbus_wlan None None)
      (fetchWifiInterfaceName (dbus_wlan None None) (process_start Disconnected)).1.
Proof.
  apply (fetchWifiInterfaceName_sound (dbus_wlan None None) (process_start Disconnected)).
  vm_compute. congruence.
Defined.

Lemma emit_world (e : Effect) (w : World) :
  (emit e w).2 = mkWorld (m_wifi_status w) (name_static w) (trace w ++ [e]).
Proof. reflexivity. Qed.

Lemma fetchWifiInterfaceName_loop_world_none (dbus : DBusClient) (l : list string)
    (w : World) :
  Forall (λ i, ¬ is_wifi dbus i) l →
  (fetchWifiInterfaceName_loop dbus l w).2 =
    mkWorld (m_wifi_status w) (name_static w) (trace w ++ type_queries l).
Proof.
  intros Hl. revert w. induction Hl as [|i l Hi _ IH]; intros w.
  - simpl. rewrite app_nil_r. by destruct w.
  - rewrite fetchWifiInterfaceName_loop_step, decide_False by done.
    rewrite IH, emit_world. simpl. by rewrite <- app_assoc.
Qed.

Lemma fetchWifiInterfaceName_loop_world_found (dbus : DBusClient) (l1 l2 : list string)
    (n : string) (w : World) :
  Forall (λ i, ¬ is_wifi dbus i) l1 → is_wifi dbus n →
  (fetchWifiInterfaceName_loop dbus (l1 ++ n :: l2) w).2 =
    mkWorld (m_wifi_status w) (name_static w) (trace w ++ type_queries (l1 ++ [n])).
Proof.
  intros Hl1 Hn. revert w. induction Hl1 as [|i l1 Hi _ IH]; intros w.
  - simpl app. rewrite fetchWifiInterfaceName_loop_step, decide_True by done.
    by rewrite emit_world.
  - simpl app. rewrite fetchWifiInterfaceName_loop_step, decide_False by done.
    rewrite IH, emit_world. simpl. by rewrite <- app_assoc.
Qed.

(** X10: [fetchWifiInterfaceName] lists the interfaces once, then asks
    the [type] of each listed interface in order, up to and including the
    first wifi one and of none after it; when no listed interface is wifi
    it asks all of them and logs nothing; when the listing fails it asks
    nothing more and logs one warning. It changes nothing else. *)
Theorem fetchWifiInterfaceName_queries (dbus : DBusClient) (w : World) :
  (∀ (l1 l2 : list string) (n : string),
      networkconfig1_GetInterfaces dbus = Some (l1 ++ n :: l2) →
      Forall (λ i, ¬ is_wifi dbus i) l1 →
      is_wifi dbus n →
      (fetchWifiInterfaceName dbus w).2 =
        mkWorld (m_wifi_status w) (name_static w)
          (trace w ++ CallGetInterfaces :: type_queries (l1 ++ [n]))) ∧
  (∀ l : list string,
      networkconfig1_GetInterfaces dbus = Some l →
      Forall (λ i, ¬ is_wifi dbus i) l →
      (fetchWifiInterfaceName dbus w).2 =
        mkWorld (m_wifi_status w) (name_static w)
          (trace w ++ CallGetInterfaces :: type_queries l)) ∧
  (networkconfig1_GetInterfaces dbus = None →
      (fetchWifiInterfaceName dbus w).2 =
        mkWorld (m_wifi_status w) (name_static w)
          (trace w ++
             [CallGetInterfaces;
              LOGWARN "failed to fetch interfaces via networkconfig1_GetInterfaces" []])).
Proof.
  rewrite fetchWifiInterfaceName_unfold. split; [|split].
  - intros l1 l2 n -> Hl1 Hn.
    rewrite fetchWifiInterfaceName_loop_world_found, emit_world by done.
    simpl. by rewrite <- app_assoc.
  - intros l -> Hl.
    rewrite fetchWifiInterfaceName_loop_world_none, emit_world by done.
    simpl. by rewrite <- app_assoc.
  - intros ->. rewrite !emit_world. simpl. by rewrite <- app_assoc.
Qed.

Lemma fetchWifiInterfaceName_queries_witness :
  trace (fetchWifiInterfaceName (dbus_wlan None None) (process_start Disconnected)).2 =
    [CallGetInterfaces; CallGetParam "eth0" "type"; CallGetParam "wlan0" "type"] ∧
  trace (fetchWifiInterfaceName dbus_wired_only (process_start Disconnected)).2 =
    [CallGetInterfaces; CallGetParam "eth0" "type"] ∧
  trace (fetchWifiInterfaceName (mkDBusClient None (λ _ _, None) (λ _, None))
           (process_start Disconnected)).2 =
    [CallGetInterfaces;
     LOGWARN "failed to fetch interfaces via networkconfig1_GetInterfaces" []].
Proof.
  split; [|split].
  - rewrite (proj1 (fetchWifiInterfaceName_queries (dbus_wlan None None)
                      (process_start Disconnected)) ["eth0"] ["wlan1"] "wlan0").
    + reflexivity.
    + reflexivity.
    + constructor; [vm_compute; congruence | constructor].
    + reflexivity.
  - rewrite (proj1 (proj2 (fetchWifiInterfaceName_queries dbus_wired_only
                             (process_start Disconnected))) ["eth0"]).
    + reflexivity.
    + reflexivity.
    + constructor; [vm_compute; congruence | constructor].
  - rewrite (proj2 (proj2 (fetchWifiInterfaceName_queries
                             (mkDBusClient None (λ _ _, None) (λ _, None))
                             (process_start Disconnected)))).
    + reflexivity.
    + reflexivity.
Defined.

(** ** Initialisation, when an interface is found *)

Lemma registrations_app (t1 t2 : list Effect) :
  registrations (t1 ++ t2) = (registrations t1 + registrations t2)%nat.
Proof. unfold registrations. by rewrite filter_app, length_app. Qed.

Lemma registrations_singleton (e : Effect) :
  registrations [e] = if is_registration e then 1%nat else 0%nat.
Proof. by destruct e. Qed.

Lemma status_queries_app (t1 t2 : list Effect) :
  status_queries (t1 ++ t2) = status_queries t1 ++ status_queries t2.
Proof. unfold status_queries. apply omap_app. Qed.

(** Resolution effects are no notification, no subscription and no
    status query. *)
Lemma resolution_effects_silent (t : list Effect) :
  Forall is_resolution_effect t →
  notifications t = [] ∧ registrations t = 0%nat ∧ status_queries t = [].
Proof.
  induction 1 as [|e t He _ (IHn & IHr & IHq)]; [done|].
  change (e :: t) with ([e] ++ t).
  rewrite notifications_app, registrations_app, status_queries_app, IHn, IHr, IHq.
  by destruct e.
Qed.

Lemma type_queries_resolution (l : list string) :
  Forall is_resolution_effect (type_queries l).
Proof. induction l as [|i l IH]; by constructor. Qed.

Lemma fetchWifiInterfaceName_loop_resolution (dbus : DBusClient) (l : list string)
    (w : World) :
  ∃ t, appends t w (fetchWifiInterfaceName_loop dbus l w).2 ∧
       Forall is_resolution_effect t.
Proof.
  revert w. induction l as [|intf rest IH]; intros w.
  - exists []. split; [apply appends_nil | done].
  - rewrite fetchWifiInterfaceName_loop_step.
    destruct (decide (is_wifi dbus intf)) as [_|_].
    + exists [CallGetParam intf "type"]. split; [apply emit_appends | by constructor].
    + destruct (IH (emit (CallGetParam intf "type") w).2) as (t & Ht & Hres).
      exists ([CallGetParam intf "type"] ++ t). split.
      * eapply appends_trans; [apply emit_appends | exact Ht].
      * by constructor.
Qed.

Lemma fetchWifiInterfaceName_resolution (dbus : DBusClient) (w : World) :
  ∃ t, appends t w (fetchWifiInterfaceName dbus w).2 ∧
       Forall is_resolution_effect t.
Proof.
  rewrite fetchWifiInterfaceName_unfold.
  destruct (networkconfig1_GetInterfaces dbus) as [l|].
  - destruct (fetchWifiInterfaceName_loop_resolution dbus l (emit CallGetInterfaces w).2)
      as (t & Ht & Hres).
    exists ([CallGetInterfaces] ++ t). split.
    + eapply appends_trans; [apply emit_appends | exact Ht].
    + by constructor.
  - eexists [CallGetInterfaces; LOGWARN _ []]. split.
    + unfold appends. simpl. by rewrite <- app_assoc.
    + by repeat constructor.
Qed.

(** Any call of [getWifiInterfaceName] leaves the static set to the name
    it returns and adds resolution effects only (none when the static was
    set already). *)
Lemma getWifiInterfaceName_delta (dbus : DBusClient) (w : World) :
  ∃ t, (getWifiInterfaceName dbus w).2 =
         mkWorld (m_wifi_status w) (Some (getWifiInterfaceName dbus w).1) (trace w ++ t) ∧
       Forall is_resolution_effect t.
Proof.
  destruct (name_static w) as [n|] eqn:Hw.
  - rewrite (getWifiInterfaceName_cached dbus w n Hw). exists []. simpl.
    rewrite app_nil_r. split; [|done]. destruct w; simpl in *; by subst.
  - unfold getWifiInterfaceName. rewrite Hw.
    unfold mbind, M_bind, init_name_static, mret, M_ret. simpl.
    destruct (fetchWifiInterfaceName_resolution dbus w) as (t & Ht & Hres).
    exists t. split; [|done]. by rewrite Ht.
Qed.

(** X1: when a wifi interface is resolved and the seed status query
    succeeds, [Initialize] subscribes first, then queries the status of
    the resolved interface, then stores the status it got and notifies
    the subscribers once if that status is in the table (it logs the
    unknown state otherwise). Before the subscription it has done
    nothing but resolve the name. *)
Theorem Initialize_seeds_snapshot (dbus : DBusClient) (w : World) (st : InterfaceStatus) :
  let name := (getWifiInterfaceName dbus w).1 in
  let w' := (Initialize dbus w).2 in
  name ≠ "" →
  networkconfig1_GetStatus dbus name = Some st →
  m_wifi_status w' = st ∧
  name_static w' = Some name ∧
  notifications (trace w') =
    notifications (trace w) ++
      match statusToState !! st with
      | Some state => [(state, false)]
      | None => []
      end ∧
  ∃ t : list Effect,
    Forall is_resolution_effect t ∧
    trace w' =
      trace w ++ t ++
        [CallRegisterStatusChanged; CallGetStatus name;
         match statusToState !! st with
         | Some state => onWIFIStateChanged state false
         | None => LOGWARN "unknown state: %d" [ArgStatus st]
         end].
Proof.
  intros name w' Hne Hst. subst w'.
  destruct (getWifiInterfaceName_delta dbus w) as (t & Hw1 & Hres).
  destruct (resolution_effects_silent t Hres) as (Hn & _ & _).
  rewrite Initialize_unfold. cbv zeta. fold name.
  rewrite decide_False by exact Hne. rewrite Hst, updateWifiStatus_unfold.
  rewrite !emit_world. fold name in Hw1. rewrite Hw1. simpl.
  split; [done|]. split; [done|]. split.
  - rewrite !notifications_app, Hn.
    destruct (statusToState !! st); simpl; by rewrite !app_nil_r.
  - exists t. split; [done|]. by rewrite <- !app_assoc.
Qed.

Lemma Initialize_seeds_snapshot_witness :
  let w' := (Initialize (dbus_wlan (Some Scanning) None) (process_start Disconnected)).2 in
  m_wifi_status w' = Scanning ∧
  name_static w' = Some "wlan0" ∧
  notifications (trace w') = [(CONNECTING, false)].
Proof.
  destruct (Initialize_seeds_snapshot (dbus_wlan (Some Scanning) None)
              (process_start Disconnected) Scanning) as (Hm & Hs & Hn & _).
  - vm_compute. congruence.
  - reflexivity.
  - split; [exact Hm|]. split; [exact Hs | exact Hn].
Defined.

(** X2: [Initialize] subscribes to status changes exactly once when a
    wifi interface is resolved, also when the seed query then fails, and
    not at all when none is; the only status it queries is that of the
    resolved interface. *)
Theorem Initialize_subscribes_iff_resolved (dbus : DBusClient) (w : World) :
  let name := (getWifiInterfaceName dbus w).1 in
  let w' := (Initialize dbus w).2 in
  registrations (trace w') =
    (registrations (trace w) + if decide (name = "") then 0 else 1)%nat ∧
  status_queries (trace w') =
    status_queries (trace w) ++ if decide (name = "") then [] else [name].
Proof.
  intros name w'. subst w'.
  destruct (getWifiInterfaceName_delta dbus w) as (t & Hw1 & Hres).
  destruct (resolution_effects_silent t Hres) as (_ & Hr & Hq).
  rewrite Initialize_unfold. cbv zeta. fold name. fold name in Hw1.
  destruct (decide (name = "")) as [He|Hne].
  - rewrite emit_world, Hw1. simpl.
    rewrite !registrations_app, !status_queries_app, Hr, Hq, registrations_singleton.
    simpl. rewrite !app_nil_r. split; [lia | done].
  - destruct (networkconfig1_GetStatus dbus name) as [st|].
    + rewrite updateWifiStatus_unfold, !emit_world, Hw1. simpl.
      rewrite !registrations_app, !status_queries_app, Hr, Hq, !registrations_singleton.
      destruct (statusToState !! st); simpl; rewrite !app_nil_r; (split; [lia | done]).
    + rewrite !emit_world, Hw1. simpl.
      rewrite !registrations_app, !status_queries_app, Hr, Hq, !registrations_singleton.
      simpl. rewrite !app_nil_r. split; [lia | done].
Qed.

(** ** A stream of status events *)

Lemma statusChanged_cached (dbus : DBusClient) (interface name : string)
    (status : InterfaceStatus) (w : World) :
  name_static w = Some name →
  (statusChanged dbus interface status w).2 =
    if decide (interface = name) then (updateWifiStatus status w).2 else w.
Proof.
  intros Hw. rewrite statusChanged_unfold.
  rewrite (getWifiInterfaceName_cached dbus w name Hw). simpl.
  by destruct (decide (interface = name)).
Qed.

Lemma deliver_events_feed (name : string) (events : list StatusEvent) (w : World) :
  name_static w = Some name →
  deliver_events events w = feed (accepted name events) w.
Proof.
  revert w. induction events as [|e events IH]; intros w Hw; [done|].
  unfold deliver_events, accepted in *. simpl.
  rewrite (statusChanged_cached _ _ name) by exact Hw.
  destruct (decide (event_interface e = name)) as [He|He].
  - rewrite filter_cons_True by exact He. simpl.
    apply IH. by rewrite updateWifiStatus_unfold.
  - rewrite filter_cons_False by exact He. by apply IH.
Qed.

(** X3: once the interface name is resolved, a stream of status events
    acts as its sub-stream for that interface fed to [updateWifiStatus],
    whatever the DBus client answers meanwhile: the events for other
    interfaces change nothing, the subscribers get one notification per
    accepted status of the table, in arrival order, and the Snapshot ends
    at the last accepted status. *)
Theorem statusChanged_stream (name : string) (events : list StatusEvent) (w : World) :
  name_static w = Some name →
  let w' := deliver_events events w in
  w' = feed (accepted name events) w ∧
  notifications (trace w') =
    notifications (trace w) ++
      ((λ state, (state, false)) <$>
         omap (λ s, statusToState !! s) (accepted name events)) ∧
  m_wifi_status w' = default (m_wifi_status w) (last (accepted name events)).
Proof.
  intros Hw w'. subst w'. rewrite (deliver_events_feed name) by exact Hw.
  split; [done|]. split; [apply feed_notifications | apply feed_m_wifi_status].
Qed.

Lemma statusChanged_stream_witness :
  let w := (Initialize (dbus_wlan (Some Disconnected) None)
              (process_start Disconnected)).2 in
  let down := mkDBusClient None (λ _ _, None) (λ _, None) in
  let w' := deliver_events
              [mkStatusEvent down "wlan0" Scanning;
               mkStatusEvent down "eth0" Assigned;
               mkStatusEvent down "wlan0" (Unlisted 9);
               mkStatusEvent down "wlan0" Assigned] w in
  notifications (trace w') =
    [(DISCONNECTED, false); (CONNECTING, false); (CONNECTED, false)] ∧
  m_wifi_status w' = Assigned.
Proof.
  intros w down w'.
  destruct (statusChanged_stream "wlan0"
              [mkStatusEvent down "wlan0" Scanning;
               mkStatusEvent down "eth0" Assigned;
               mkStatusEvent down "wlan0" (Unlisted 9);
               mkStatusEvent down "wlan0" Assigned] w) as (_ & Hn & Hm).
  - reflexivity.
  - split; [exact Hn | exact Hm].
Defined.

(** ** Calls that only ask *)

#[global] Instance quiet_step_preorder : PreOrder quiet_step.
Proof.
  split.
  - by intros w.
  - intros w1 w2 w3 (Hm12 & Hn12 & Hr12) (Hm23 & Hn23 & Hr23).
    unfold quiet_step. by rewrite Hm23, Hn23, Hr23.
Qed.

Lemma quiet_step_emit (e : Effect) :
  notification e = None → is_registration e = false → preserves quiet_step (emit e).
Proof.
  intros Hn Hr w. unfold quiet_step. rewrite emit_world. simpl.
  rewrite notifications_app, registrations_app, registrations_singleton, Hr.
  unfold notifications at 2. simpl. rewrite Hn, app_nil_r.
  split; [done|]. split; [done|lia].
Qed.

Lemma quiet_step_getWifiInterfaceName (dbus : DBusClient) :
  preserves quiet_step (getWifiInterfaceName dbus).
Proof.
  intros w. destruct (getWifiInterfaceName_delta dbus w) as (t & Hw1 & Hres).
  destruct (resolution_effects_silent t Hres) as (Hn & Hr & _).
  unfold quiet_step. rewrite Hw1. simpl.
  rewrite notifications_app, registrations_app, Hn, Hr, app_nil_r.
  split; [done|]. split; [done|lia].
Qed.

Lemma quiet_step_dbus_GetParam (dbus : DBusClient) (intf key : string) :
  preserves quiet_step (dbus_GetParam dbus intf key).
Proof.
  apply preserves_bind; [apply _ | by apply quiet_step_emit | intros; apply preserves_ret; apply _].
Qed.

Create HintDb quiet_step discriminated.

#[global] Hint Resolve quiet_step_emit quiet_step_getWifiInterfaceName
  quiet_step_dbus_GetParam : quiet_step.

(** The decomposition of [cache_step_tac], for any preorder [R] and any
    way [prim] to close its primitives. *)
Ltac preserves_with R prim :=
  repeat first
    [ apply (preserves_bind R); [| intros ?]
    | apply (preserves_ret R)
    | apply (preserves_load R)
    | apply (preserves_if R)
    | solve [ prim ]
    | match goal with
      | |- preserves R (match ?x with _ => _ end) => destruct x
      end ].

Lemma quiet_step_perform_query (c : Call) (w : World) :
  is_query c → quiet_step w (perform c w).
Proof.
  destruct c; intros Hq; try (exfalso; exact Hq); clear Hq; unfold perform;
    match goal with |- quiet_step ?w (?m ?w).2 => revert w; change (preserves quiet_step m) end.
  - unfold getCurrentState. preserves_with quiet_step ltac:(auto with quiet_step).
  - unfold getConnectedSSID. preserves_with quiet_step ltac:(auto with quiet_step).
  - unfold setEnabled. preserves_with quiet_step ltac:(auto with quiet_step).
  - unfold getSupportedSecurityModes. preserves_with quiet_step ltac:(auto with quiet_step).
  - preserves_with quiet_step ltac:(auto with quiet_step).
Qed.

Lemma quiet_step_run_queries (qs : list Call) (w : World) :
  Forall is_query qs → quiet_step w (run qs w).
Proof.
  intros Hqs. revert w. induction Hqs as [|c qs Hc _ IH]; intros w; [reflexivity|].
  unfold run in *. simpl.
  etransitivity; [by apply quiet_step_perform_query | apply IH].
Qed.

(** X5: the calls that only ask ([getCurrentState], [getConnectedSSID],
    [setEnabled], [getSupportedSecurityModes], [getWifiInterfaceName]),
    in any number and order and whatever the DBus client answers, never
    change the Snapshot, never notify the subscribers and never
    subscribe to the bus. *)
Theorem queries_keep_snapshot (qs : list Call) (w : World) :
  Forall is_query qs →
  m_wifi_status (run qs w) = m_wifi_status w ∧
  notifications (trace (run qs w)) = notifications (trace w) ∧
  registrations (trace (run qs w)) = registrations (trace w).
Proof. intros Hqs. by apply quiet_step_run_queries. Qed.

Lemma queries_keep_snapshot_witness :
  let w := process_start Dormant in
  let w' := run [CallGetConnectedSSID (dbus_wlan None (Some "wifi:HomeNet")) ∅ ∅;
                 CallGetCurrentState ∅ ∅;
                 CallSetEnabled ∅ ∅] w in
  m_wifi_status w' = Dormant ∧ notifications (trace w') = [] ∧
  registrations (trace w') = 0%nat.
Proof.
  apply (queries_keep_snapshot
           [CallGetConnectedSSID (dbus_wlan None (Some "wifi:HomeNet")) ∅ ∅;
            CallGetCurrentState ∅ ∅;
            CallSetEnabled ∅ ∅] (process_start Dormant)).
  repeat constructor.
Defined.

Lemma getCurrentState_result (parameters response : JsonObject) (w : World) :
  (getCurrentState parameters response w).1 =
    match statusToState !! m_wifi_status w with
    | Some state =>
        returnResponse true (<["state" := JInt (WifiState_to_int state)]> response)
    | None => returnResponse false response
    end.
Proof.
  unfold getCurrentState, mbind, M_bind, load_wifi_status. simpl.
  by destruct (statusToState !! m_wifi_status w).
Qed.

(** X4: after a status update, and until the next one, what
    [getCurrentState] answers is what the subscribers were last told:
    for a status of the table the last notification carries the mapped
    state and the query returns its integer value with [success] true,
    however many asking calls came in between; for a status outside the
    table nobody was told anything and the query fails. *)
Theorem getCurrentState_agrees_with_notification
    (status : InterfaceStatus) (qs : list Call) (parameters response : JsonObject)
    (w : World) :
  Forall is_query qs →
  let w' := run qs (updateWifiStatus status w).2 in
  let obj := (getCurrentState parameters response w').1.2 in
  match statusToState !! status with
  | Some state =>
      last (notifications (trace w')) = Some (state, false) ∧
      obj !! "success" = Some (JBool true) ∧
      obj !! "state" = Some (JInt (WifiState_to_int state))
  | None =>
      notifications (trace w') = notifications (trace w) ∧
      obj !! "success" = Some (JBool false)
  end.
Proof.
  intros Hqs w' obj.
  destruct (quiet_step_run_queries qs (updateWifiStatus status w).2 Hqs)
    as (Hm & Hn & _).
  fold w' in Hm, Hn.
  rewrite updateWifiStatus_notifications in Hn.
  rewrite updateWifiStatus_unfold in Hm. simpl in Hm.
  subst obj. rewrite getCurrentState_result, Hm.
  destruct (statusToState !! status) as [state|]; unfold returnResponse; simpl.
  - rewrite Hn, last_snoc. split; [done|].
    split; [by rewrite lookup_insert_eq|].
    rewrite lookup_insert_ne by done. by rewrite lookup_insert_eq.
  - rewrite Hn, app_nil_r. split; [done|]. by rewrite lookup_insert_eq.
Qed.

Lemma getCurrentState_agrees_with_notification_witness :
  let w' := run [CallGetConnectedSSID dbus_wired_only ∅ ∅]
                (updateWifiStatus Binding (process_start Disabled)).2 in
  last (notifications (trace w')) = Some (CONNECTING, false) ∧
  (getCurrentState ∅ ∅ w').1.2 !! "success" = Some (JBool true) ∧
  (getCurrentState ∅ ∅ w').1.2 !! "state" = Some (JInt 4).
Proof.
  apply (getCurrentState_agrees_with_notification Binding
           [CallGetConnectedSSID dbus_wired_only ∅ ∅] ∅ ∅ (process_start Disabled)).
  repeat constructor.
Defined.

(** ** What the bridge can report *)

Lemma statusToState_range (s : InterfaceStatus) (state : WifiState) :
  statusToState !! s = Some state →
  state ∈ [DISABLED; DISCONNECTED; CONNECTING; CONNECTED].
Proof.
  destruct s; [..|by rewrite statusToState_Unlisted];
    vm_compute; intros [= <-]; set_solver.
Qed.

#[global] Instance reportable_step_preorder : PreOrder reportable_step.
Proof.
  split.
  - intros w Hw. exact Hw.
  - intros w1 w2 w3 H12 H23 H1. by apply H23, H12.
Qed.

Lemma reportable_step_quiet (w w' : World) : quiet_step w w' → reportable_step w w'.
Proof. intros (_ & Hn & _). unfold reportable_step. by rewrite Hn. Qed.

Lemma reportable_step_updateWifiStatus (status : InterfaceStatus) (w : World) :
  reportable_step w (updateWifiStatus status w).2.
Proof.
  unfold reportable_step. rewrite updateWifiStatus_notifications. intros Hw.
  apply Forall_app. split; [exact Hw|].
  destruct (statusToState !! status) as [state|] eqn:Hs; [|done].
  constructor; [|done]. split; [by apply (statusToState_range status) | done].
Qed.

Lemma reportable_step_emit (e : Effect) (w : World) :
  notification e = None → reportable_step w (emit e w).2.
Proof.
  intros He. unfold reportable_step. rewrite emit_world. simpl.
  rewrite notifications_app. unfold notifications at 3. simpl.
  by rewrite He, app_nil_r.
Qed.

Lemma reportable_step_getWifiInterfaceName (dbus : DBusClient) (w : World) :
  reportable_step w (getWifiInterfaceName dbus w).2.
Proof. apply reportable_step_quiet, quiet_step_getWifiInterfaceName. Qed.

Lemma reportable_step_perform (c : Call) (w : World) : reportable_step w (perform c w).
Proof.
  destruct (is_query c) eqn:Hq.
  { apply reportable_step_quiet, quiet_step_perform_query. by rewrite Hq. }
  destruct c; try discriminate Hq; unfold perform.
  - rewrite Initialize_unfold. cbv zeta.
    pose proof (reportable_step_getWifiInterfaceName dbus w) as H1.
    destruct (decide ((getWifiInterfaceName dbus w).1 = "")) as [He|Hne].
    + etransitivity; [exact H1 | by apply reportable_step_emit].
    + assert (H2 : reportable_step w
                (emit (CallGetStatus (getWifiInterfaceName dbus w).1)
                   (emit CallRegisterStatusChanged (getWifiInterfaceName dbus w).2).2).2).
      { etransitivity; [exact H1|].
        etransitivity; by apply reportable_step_emit. }
      destruct (networkconfig1_GetStatus dbus (getWifiInterfaceName dbus w).1).
      * etransitivity; [exact H2 | apply reportable_step_updateWifiStatus].
      * etransitivity; [exact H2 | by apply reportable_step_emit].
  - rewrite statusChanged_unfold.
    pose proof (reportable_step_getWifiInterfaceName dbus w) as H1.
    destruct (decide (interface = (getWifiInterfaceName dbus w).1)); [|exact H1].
    etransitivity; [exact H1 | apply reportable_step_updateWifiStatus].
Qed.

Lemma reportable_step_run (cs : list Call) (w : World) : reportable_step w (run cs w).
Proof.
  revert w. induction cs as [|c cs IH]; intros w; [reflexivity|].
  unfold run in *. simpl. etransitivity; [apply reportable_step_perform | apply IH].
Qed.

(** X6: whatever calls a process makes, with whatever DBus answers and
    events, every notification it ever sends carries DISABLED,
    DISCONNECTED, CONNECTING or CONNECTED (never UNINSTALLED or PAIRING)
    and [isLNF = false]. *)
Theorem notifications_reportable (initial : InterfaceStatus) (cs : list Call) :
  Forall reportable (notifications (trace (run cs (process_start initial)))).
Proof. by apply (reportable_step_run cs (process_start initial)). Qed.

(** X7: when [getCurrentState] succeeds, the [state] it returns is 1, 2,
    4 or 5: the query never answers 0 (UNINSTALLED) or 3 (PAIRING), and
    it never succeeds without a [state]. *)
Theorem getCurrentState_state_range (parameters response : JsonObject) (w : World) :
  let obj := (getCurrentState parameters response w).1.2 in
  obj !! "success" = Some (JBool true) →
  ∃ n : Z, obj !! "state" = Some (JInt n) ∧ n ∈ [1; 2; 4; 5].
Proof.
  intros obj. subst obj. rewrite getCurrentState_result.
  destruct (statusToState !! m_wifi_status w) as [state|] eqn:Hs;
    unfold returnResponse; simpl.
  - intros _. exists (WifiState_to_int state).
    rewrite lookup_insert_ne by done. rewrite lookup_insert_eq. split; [done|].
    apply statusToState_range in Hs.
    rewrite !elem_of_cons in Hs. rewrite !elem_of_cons.
    destruct Hs as [->|[->|[->|[->|Hs]]]]; simpl; [tauto..|].
    by apply not_elem_of_nil in Hs.
  - by rewrite lookup_insert_eq.
Qed.

Lemma getCurrentState_state_range_witness :
  ∃ n : Z,
    (getCurrentState ∅ ∅ (process_start Dormant)).1.2 !! "state" = Some (JInt n) ∧
    n ∈ [1; 2; 4; 5].
Proof.
  apply (getCurrentState_state_range ∅ ∅ (process_start Dormant)).
  reflexivity.
Defined.

(** ** A resolution that found nothing *)

(** X8: once a call of [getWifiInterfaceName] has returned the empty
    name (no wifi interface, or the bus was down), the process stays
    without one whatever calls follow and whatever the DBus client
    answers later: the name stays empty without asking the bus again,
    [getConnectedSSID] fails, and [Initialize] only logs that no wifi
    interface was found (it neither subscribes nor queries a status). *)
Theorem failed_resolution_is_sticky (dbus0 dbus : DBusClient) (cs : list Call)
    (parameters response : JsonObject) (w : World) :
  (getWifiInterfaceName dbus0 w).1 = "" →
  let w' := run cs (getWifiInterfaceName dbus0 w).2 in
  getWifiInterfaceName dbus w' = ("", w') ∧
  (getConnectedSSID dbus parameters response w').1 =
    Some (returnResponse false (placeholders response)) ∧
  (getConnectedSSID dbus parameters response w').2 = w' ∧
  (Initialize dbus w').2 = (emit (LOGWARN "No 'wifi' interface found" []) w').2.
Proof.
  intros Hempty w'.
  destruct (getWifiInterfaceName_post dbus0 w) as (Hs & _ & _).
  rewrite Hempty in Hs.
  assert (Hw' : name_static w' = Some "")
    by (by apply (cache_step_run cs (getWifiInterfaceName dbus0 w).2)).
  pose proof (getWifiInterfaceName_cached dbus w' "" Hw') as Hc.
  split; [exact Hc|]. split; [|split].
  - rewrite getConnectedSSID_result, Hc. reflexivity.
  - unfold getConnectedSSID. unfold mbind at 1, M_bind at 1. rewrite Hc. reflexivity.
  - rewrite Initialize_unfold, Hc. reflexivity.
Qed.

Lemma failed_resolution_is_sticky_witness :
  let down := mkDBusClient None (λ _ _, None) (λ _, None) in
  let up := dbus_wlan (Some Assigned) (Some "wifi:HomeNet") in
  let w' := run [CallStatusChanged up "wlan0" Assigned]
                (getWifiInterfaceName down (process_start Disconnected)).2 in
  getWifiInterfaceName up w' = ("", w') ∧
  (getConnectedSSID up ∅ ∅ w').1 = Some (returnResponse false (placeholders ∅)) ∧
  m_wifi_status w' = Disconnected.
Proof.
  intros down up w'.
  destruct (failed_resolution_is_sticky down up [CallStatusChanged up "wlan0" Assigned]
              ∅ ∅ (process_start Disconnected)) as (Hn & Hr & _).
  - reflexivity.
  - split; [exact Hn|]. split; [exact Hr | reflexivity].
Defined.

(** ** The shape of the SSID response *)

Lemma response_other_fields (success : bool) (response : JsonObject) (k : string) :
  k ∉ getConnectedSSID_fields →
  (returnResponse success (placeholders response)).2 !! k = response !! k.
Proof.
  unfold getConnectedSSID_fields. rewrite !not_elem_of_cons.
  intros (? & ? & ? & ? & ? & ? & ? & ? & _).
  unfold returnResponse, placeholders. simpl.
  by rewrite !lookup_insert_ne by done.
Qed.

(** X11: in every outcome (no interface, failed query, netid without
    [':'], success) [getConnectedSSID] returns [ERROR_NONE] and a
    response whose [bssid], [rate], [noise], [security],
    [signalStrength] and [frequency] are the empty string, whatever the
    caller's response held there, and in which every field other than
    these, [ssid] and [success] is as the caller's response had it. *)
Theorem getConnectedSSID_response_shape (dbus : DBusClient)
    (parameters response : JsonObject) (w : World) :
  ∃ obj : JsonObject,
    (getConnectedSSID dbus parameters response w).1 = Some (ERROR_NONE, obj) ∧
    obj !! "bssid" = Some (JString "") ∧
    obj !! "rate" = Some (JString "") ∧
    obj !! "noise" = Some (JString "") ∧
    obj !! "security" = Some (JString "") ∧
    obj !! "signalStrength" = Some (JString "") ∧
    obj !! "frequency" = Some (JString "") ∧
    (∀ k : string, k ∉ getConnectedSSID_fields → obj !! k = response !! k).
Proof.
  rewrite getConnectedSSID_result. cbv zeta.
  assert (Hplain : ∀ b : bool,
    ∃ obj : JsonObject,
      Some (returnResponse b (placeholders response)) = Some (ERROR_NONE, obj) ∧
      obj !! "bssid" = Some (JString "") ∧
      obj !! "rate" = Some (JString "") ∧
      obj !! "noise" = Some (JString "") ∧
      obj !! "security" = Some (JString "") ∧
      obj !! "signalStrength" = Some (JString "") ∧
      obj !! "frequency" = Some (JString "") ∧
      (∀ k : string, k ∉ getConnectedSSID_fields → obj !! k = response !! k)).
  { intros b. exists (returnResponse b (placeholders response)).2.
    destruct (response_fields b response) as (_ & _ & _ & Hf).
    split; [reflexivity|]. repeat (split; [apply Hf|]).
    intros k Hk. by apply response_other_fields. }
  destruct (decide ((getWifiInterfaceName dbus w).1 = "")); [apply Hplain|].
  destruct (networkconfig1_GetParam dbus (getWifiInterfaceName dbus w).1 "netid")
    as [netid|]; [|apply Hplain].
  destruct (find ":" netid) as [pos|] eqn:Hf; [|apply Hplain].
  destruct (find_colon_substr netid pos Hf) as (pre & post & _ & _ & _ & ->).
  exists (returnResponse true (placeholders (<["ssid" := JString post]> response))).2.
  destruct (response_fields true (<["ssid" := JString post]> response))
    as (_ & _ & _ & Hfields).
  split; [reflexivity|]. repeat (split; [apply Hfields|]).
  intros k Hk. rewrite response_other_fields by exact Hk.
  apply lookup_insert_ne. intros <-. apply Hk.
  unfold getConnectedSSID_fields. apply list_elem_of_further, list_elem_of_here.
Qed.

Lemma getConnectedSSID_response_shape_witness :
  let response : JsonObject :=
    <["bssid" := JString "aa:bb"]> (<["requestId" := JInt 7]> ∅) in
  ∃ obj : JsonObject,
    (getConnectedSSID (dbus_wlan None (Some "wifi:HomeNet")) ∅ response
       (process_start Disconnected)).1 = Some (ERROR_NONE, obj) ∧
    obj !! "bssid" = Some (JString "") ∧
    obj !! "requestId" = Some (JInt 7).
Proof.
  intros response.
  destruct (getConnectedSSID_response_shape (dbus_wlan None (Some "wifi:HomeNet")) ∅
              response (process_start Disconnected))
    as (obj & Hr & Hb & _ & _ & _ & _ & _ & Hother).
  exists obj. split; [exact Hr|]. split; [exact Hb|].
  rewrite (Hother "requestId").
  - reflexivity.
  - unfold getConnectedSSID_fields. by apply (bool_decide_unpack _).
Defined.
